(** * GENX AI Studio backend: the model fusion engine and its HTTP handlers

    A shallow embedding of [Backend/app.py] and the verification of its
    specification.

    - Python values that travel through the handlers and the pipeline
      ([Dict[str, Any]], parsed JSON) are the inductive type [pyval];
      dictionaries are association lists in insertion order.
    - [str] is [string]: the model covers text whose characters are below
      256, and [lower] follows [str.lower] on the ASCII letters, leaving
      every other character as it is.
    - [float] is the kernel's binary64 [float]; [x * 100] and [i * 0.1] are
      [PrimFloat.mul].
    - What the interpreter and the operating system provide (the rendering
      of a float, [float()] of a string, [hash()], [uuid.uuid4()],
      [time.time()]) is a [PyRuntime], a parameter of the whole model.
    - The coroutines of [ModelFusionEngine] and the Flask handlers are
      functions in a state-and-exception monad over [World]: the job
      registry [active_jobs], the number of UUIDs and clock readings drawn
      so far, and the trace of [asyncio.sleep] and [logger] calls. *)

From Stdlib Require Import ZArith String Ascii List Floats Uint63 Lia.
From stdpp Require Import gmap strings pretty.
Import ListNotations.

Set Warnings "-inexact-float,-register-all".
Local Open Scope string_scope.

(** ** Python values and exceptions *)

Inductive pyval : Type :=
| PNone
| PBool (b : bool)
| PInt (z : Z)
| PFloat (f : float)
| PStr (s : string)
| PList (l : list pyval)
| PDict (d : list (string * pyval)).

Inductive exn : Type :=
| TypeError
| ValueError
| OverflowError
| AttributeError
| IndexError
| KeyError (k : pyval).

Inductive res (A : Type) : Type :=
| Ok (a : A)
| Raise (e : exn).

Arguments Ok {A} a.
Arguments Raise {A} e.

(** ** Strings *)

(** [c.lower()] for one character: the 26 ASCII capitals move by 32. *)
Definition lower_ascii (c : ascii) : ascii :=
  let n := nat_of_ascii c in
  if (65 <=? n)%nat && (n <=? 90)%nat then ascii_of_nat (n + 32) else c.

(** [s.lower()] *)
Fixpoint lower (s : string) : string :=
  match s with
  | EmptyString => EmptyString
  | String c s' => String (lower_ascii c) (lower s')
  end.

(** [needle in hay] for two strings. *)
Fixpoint str_in (needle hay : string) : bool :=
  String.prefix needle hay ||
  match hay with
  | EmptyString => false
  | String _ hay' => str_in needle hay'
  end.

(** [s.replace(old, new)] where [old] is a single character. *)
Fixpoint replace_char (old : ascii) (new s : string) : string :=
  match s with
  | EmptyString => EmptyString
  | String c s' =>
      if Ascii.eqb c old then new +:+ replace_char old new s'
      else String c (replace_char old new s')
  end.

(** [s[:n]] *)
Definition str_take (n : nat) (s : string) : string := substring 0 n s.

(** [s * n] for a string, [l * n] for a list. *)
Fixpoint str_mul (s : string) (n : nat) : string :=
  match n with
  | O => EmptyString
  | S n' => s +:+ str_mul s n'
  end.

Definition list_mul {A : Type} (l : list A) (n : nat) : list A :=
  concat (repeat l n).

(** ** Dictionaries, subscription and membership *)

Fixpoint dict_get (k : string) (d : list (string * pyval)) : option pyval :=
  match d with
  | [] => None
  | (k', v) :: d' => if String.eqb k k' then Some v else dict_get k d'
  end.

Definition dict_has (k : string) (d : list (string * pyval)) : bool :=
  match dict_get k d with Some _ => true | None => false end.

(** [v[k]] for a string key [k]. *)
Definition getitem_key (v : pyval) (k : string) : res pyval :=
  match v with
  | PDict d => match dict_get k d with
               | Some x => Ok x
               | None => Raise (KeyError (PStr k))
               end
  | _ => Raise TypeError
  end.

(** [v[0]] *)
Definition getitem_0 (v : pyval) : res pyval :=
  match v with
  | PList (x :: _) => Ok x
  | PList [] => Raise IndexError
  | PStr (String c _) => Ok (PStr (String c EmptyString))
  | PStr EmptyString => Raise IndexError
  | PDict _ => Raise (KeyError (PInt 0))
  | _ => Raise TypeError
  end.

(** [v.get(k, default)] *)
Definition py_get (v : pyval) (k : string) (default : pyval) : res pyval :=
  match v with
  | PDict d => match dict_get k d with
               | Some x => Ok x
               | None => Ok default
               end
  | _ => Raise AttributeError
  end.

Definition is_str (k : string) (v : pyval) : bool :=
  match v with PStr s => String.eqb s k | _ => false end.

(** [k in v] for a string [k]: a key of a dict, an element of a list, a
    substring of a string; the other values are not containers. *)
Definition py_in (k : string) (v : pyval) : res bool :=
  match v with
  | PDict d => Ok (dict_has k d)
  | PList l => Ok (existsb (is_str k) l)
  | PStr s => Ok (str_in k s)
  | _ => Raise TypeError
  end.

(** ** The interpreter and the operating system *)

Record PyRuntime : Type := {
  (** [str(x)] of a float, as an f-string renders it *)
  float_str : float -> string;
  (** [float(s)] of a string; [None] is [ValueError] *)
  float_of_str : string -> option float;
  (** [float(n)] of an integer; [None] is [OverflowError] *)
  float_of_int : Z -> option float;
  (** [str(v)] of a list or a dict *)
  container_str : pyval -> string;
  (** [hash(s)] of a string *)
  str_hash : string -> Z;
  (** [str(uuid.uuid4())], by the number of identifiers drawn before *)
  uuid4 : nat -> string;
  (** [time.time()], by the number of readings taken before *)
  time_time : nat -> float
}.

(** ** The dataclasses *)

Module GenerationRequest.
Record t : Type := mk {
  scene_id : string;
  text_prompt : string;
  emotion : string;
  intensity : float;
  style : string;
  camera_angle : string;
  models : list (string * string);
  parameters : list (string * pyval)
}.
(** What [generate_multimodal] passes to the constructor: the dataclass
    checks no type, and only [intensity] went through [float()]. *)
Record untyped : Type := mk_untyped {
  u_scene_id : pyval;
  u_text_prompt : pyval;
  u_emotion : pyval;
  u_intensity : float;
  u_style : pyval;
  u_camera_angle : pyval;
  u_models : pyval;
  u_parameters : pyval
}.
End GenerationRequest.

Module GenerationResult.
Record t : Type := mk {
  request_id : string;
  scene_id : string;
  status : string;
  outputs : pyval;
  metadata : pyval;
  processing_time : float
}.
End GenerationResult.

Abbreviation GenerationRequest := GenerationRequest.t.
Abbreviation GenerationResult := GenerationResult.t.

(** ** The process state and the monad of the handlers *)

Inductive event : Type :=
| EvSleep (secs : float)                 (* await asyncio.sleep(secs) *)
| EvInfo (msg : string)                  (* logger.info(msg) *)
| EvError (msg : string) (e : exn).      (* logger.error(f"{msg}{str(e)}") *)

Record World : Type := mkWorld {
  uuid_ctr : nat;
  clock_ctr : nat;
  active_jobs : gmap string string;
  trace : list event
}.

(** [fusion_engine = ModelFusionEngine()] at start-up. *)
Definition init_world : World :=
  {| uuid_ctr := 0; clock_ctr := 0; active_jobs := ∅; trace := [] |}.

Definition M (A : Type) : Type := World -> res A * World.

Definition ret {A : Type} (a : A) : M A := fun w => (Ok a, w).

Definition raise {A : Type} (e : exn) : M A := fun w => (Raise e, w).

Definition bind {A B : Type} (m : M A) (k : A -> M B) : M B :=
  fun w =>
    match m w with
    | (Ok a, w') => k a w'
    | (Raise e, w') => (Raise e, w')
    end.

Definition lift {A : Type} (r : res A) : M A := fun w => (r, w).

Notation "'let*' x ':=' m 'in' k" := (bind m (fun x => k))
  (at level 10, x name, m at level 100, k at level 200).

Definition emit (ev : event) : M unit :=
  fun w => (Ok tt, {| uuid_ctr := uuid_ctr w; clock_ctr := clock_ctr w;
                      active_jobs := active_jobs w;
                      trace := (trace w ++ [ev])%list |}).

Definition sleep (secs : float) : M unit := emit (EvSleep secs).

Definition logger_info (msg : string) : M unit := emit (EvInfo msg).

(** [active_jobs[job_id] = status] *)
Definition set_job (job_id status : string) : M unit :=
  fun w => (Ok tt, {| uuid_ctr := uuid_ctr w; clock_ctr := clock_ctr w;
                      active_jobs := <[job_id := status]> (active_jobs w);
                      trace := trace w |}).

(** ** ModelFusionEngine *)

Section Engine.

Variable rt : PyRuntime.

(** [time.time()] *)
Definition now : M float :=
  fun w => (Ok (time_time rt (clock_ctr w)),
            {| uuid_ctr := uuid_ctr w; clock_ctr := S (clock_ctr w);
               active_jobs := active_jobs w; trace := trace w |}).

(** [str(uuid.uuid4())] *)
Definition fresh_uuid : M string :=
  fun w => (Ok (uuid4 rt (uuid_ctr w)),
            {| uuid_ctr := S (uuid_ctr w); clock_ctr := clock_ctr w;
               active_jobs := active_jobs w; trace := trace w |}).

(** [{req.intensity * 100}] inside an f-string. *)
Definition percent (req : GenerationRequest) : string :=
  float_str rt (PrimFloat.mul (GenerationRequest.intensity req) 100).

(** The two answers of the mocked provider. *)
Definition wheat_field_template (req : GenerationRequest) : string :=
  "Cinematic " +:+ GenerationRequest.camera_angle req +:+
  " shot of a young boy with " +:+ GenerationRequest.emotion req +:+
  " expression, running through a golden wheat field at golden hour. Warm sunlight creates dramatic backlighting, wheat stalks swaying in gentle breeze. Dynamic movement with " +:+
  GenerationRequest.style req +:+ " cinematography, " +:+ percent req +:+
  "% emotional intensity. Professional color grading with warm amber tones.".

Definition generic_template (req : GenerationRequest) : string :=
  "Professional " +:+ GenerationRequest.style req +:+ " " +:+
  GenerationRequest.camera_angle req +:+ " shot featuring " +:+
  GenerationRequest.text_prompt req +:+ ". Emotional tone: " +:+
  GenerationRequest.emotion req +:+ " at " +:+ percent req +:+
  "% intensity. Cinematic lighting and composition optimized for AI generation.".

(** [_enhance_text_prompt]. The f-string [enhancement_prompt] is built and
    never used; building it has no effect. *)
Definition _enhance_text_prompt (req : GenerationRequest) : M string :=
  let* _ := sleep 0.5 in
  if str_in "wheat field" (lower (GenerationRequest.text_prompt req))
  then ret (wheat_field_template req)
  else ret (generic_template req).

(** [_generate_visuals] *)
Definition _generate_visuals (req : GenerationRequest) (enhanced_text : string)
  : M pyval :=
  let* _ := sleep 2.0 in
  ret (PDict [
    ("images", PList [ PDict [
       ("url", PStr ("https://image.pollinations.ai/prompt/" +:+
                     replace_char " " "%20" enhanced_text +:+
                     "?width=1920&height=1080&seed=" +:+
                     pretty (str_hash rt (GenerationRequest.scene_id req)
                             mod 10000)%Z));
       ("style", PStr (GenerationRequest.style req));
       ("emotion_accuracy", PFloat 0.92);
       ("technical_quality", PFloat 0.89) ] ]);
    ("videos", PList [ PDict [
       ("url", PStr ("https://video.pollinations.ai/prompt/" +:+
                     replace_char " " "%20" enhanced_text +:+
                     "?duration=10&fps=30"));
       ("camera_work", PStr (GenerationRequest.camera_angle req));
       ("motion_quality", PFloat 0.87);
       ("emotional_sync", PFloat 0.94) ] ]) ]).

(** [[i * 0.1 for i in range(50)]] *)
Definition timestamp (i : nat) : float :=
  PrimFloat.mul (PrimFloat.of_uint63 (Uint63.of_Z (Z.of_nat i))) 0.1.

Definition lipsync_timestamps : list float := List.map timestamp (seq 0 50).

Definition lipsync_phonemes : list string :=
  list_mul ["A"; "E"; "I"; "O"; "U"] 10.

Definition lipsync_mouth_shapes : list string :=
  list_mul ["open"; "smile"; "narrow"; "round"; "pucker"] 10.

(** [_generate_audio] *)
Definition _generate_audio (req : GenerationRequest) (enhanced_text : string)
  : M pyval :=
  let* _ := sleep 1.5 in
  ret (PDict [
    ("voice", PDict [
       ("url", PStr ("https://audio.pollinations.ai/speech/" +:+
                     str_take 100 enhanced_text +:+
                     "?voice=child&emotion=" +:+
                     GenerationRequest.emotion req));
       ("emotion_match", PFloat 0.91);
       ("naturalness", PFloat 0.88);
       ("lipsync_data", PDict [
          ("phonemes", PList (List.map PStr lipsync_phonemes));
          ("timestamps", PList (List.map PFloat lipsync_timestamps));
          ("mouth_shapes", PList (List.map PStr lipsync_mouth_shapes)) ]) ]);
    ("music", PDict [
       ("url", PStr ("https://audio.pollinations.ai/music/cinematic-" +:+
                     GenerationRequest.emotion req +:+ "?tempo=120&key=C"));
       ("mood_alignment", PFloat 0.93);
       ("emotional_progression", PBool true);
       ("adaptive_sync", PBool true) ]) ]).

(** The three constant components of the fused output. *)
Definition synchronized_timeline : pyval :=
  PDict [ ("total_duration", PFloat 10.0);
          ("emotion_peaks", PList [PFloat 2.5; PFloat 5.0; PFloat 8.5]);
          ("camera_transitions",
           PList [PInt 0; PFloat 3.0; PFloat 6.0; PFloat 9.0]);
          ("audio_sync_points",
           PList [PInt 0; PFloat 2.0; PFloat 4.0; PFloat 6.0; PFloat 8.0]) ].

Definition fusion_metadata : pyval :=
  PDict [ ("visual_audio_sync", PFloat 0.96);
          ("emotional_coherence", PFloat 0.94);
          ("technical_quality", PFloat 0.91);
          ("creative_score", PFloat 0.89) ].

Definition render_ready : pyval :=
  PDict [ ("flux_pipeline", PBool true);
          ("lipsync_enabled", PBool true);
          ("seedance_processing", PBool true);
          ("webgl_optimized", PBool true) ].

(** [_fuse_modalities]: the three subscriptions of the dict display are
    evaluated in order, after the sleep, and any of them may raise. *)
Definition _fuse_modalities (visual audio : pyval) (req : GenerationRequest)
  : M pyval :=
  let* _ := sleep 1.0 in
  let* videos := lift (getitem_key visual "videos") in
  let* video0 := lift (getitem_0 videos) in
  let* video_url := lift (getitem_key video0 "url") in
  let* music := lift (getitem_key audio "music") in
  let* music_url := lift (getitem_key music "url") in
  let* voice := lift (getitem_key audio "voice") in
  let* voice_url := lift (getitem_key voice "url") in
  ret (PDict [
    ("primary_content", PDict [ ("video", video_url);
                                ("audio", music_url);
                                ("voice", voice_url) ]);
    ("synchronized_timeline", synchronized_timeline);
    ("fusion_metadata", fusion_metadata);
    ("render_ready", render_ready) ]).

Definition models_used (req : GenerationRequest) : pyval :=
  PDict (List.map (fun kv => (fst kv, PStr (snd kv)))
                  (GenerationRequest.models req)).

Definition processing_stages : pyval :=
  PList [ PStr "text_enhancement"; PStr "visual_generation";
          PStr "audio_generation"; PStr "fusion" ].

Definition result_metadata (req : GenerationRequest) (enhanced_text : string)
  : pyval :=
  PDict [ ("enhanced_prompt", PStr enhanced_text);
          ("models_used", models_used req);
          ("emotion_context",
           PDict [ ("emotion", PStr (GenerationRequest.emotion req));
                   ("intensity", PFloat (GenerationRequest.intensity req)) ]);
          ("processing_stages", processing_stages) ].

(** [process_multimodal_scene] *)
Definition process_multimodal_scene (req : GenerationRequest)
  : M GenerationResult :=
  let* start_time := now in
  let* request_id := fresh_uuid in
  let* _ := logger_info ("Starting multimodal processing for scene " +:+
                         GenerationRequest.scene_id req) in
  let* enhanced_text := _enhance_text_prompt req in
  let* visual_outputs := _generate_visuals req enhanced_text in
  let* audio_outputs := _generate_audio req enhanced_text in
  let* fused_output := _fuse_modalities visual_outputs audio_outputs req in
  let* end_time := now in
  ret {| GenerationResult.request_id := request_id;
         GenerationResult.scene_id := GenerationRequest.scene_id req;
         GenerationResult.status := "completed";
         GenerationResult.outputs := fused_output;
         GenerationResult.metadata := result_metadata req enhanced_text;
         GenerationResult.processing_time :=
           PrimFloat.sub end_time start_time |}.

End Engine.

(** ** The HTTP boundary *)

Record response : Type := mkResponse {
  status_code : Z;
  body : pyval
}.

(** [jsonify(v)] and [jsonify(v), code] *)
Definition jsonify (v : pyval) : response :=
  {| status_code := 200; body := v |}.

Definition jsonify_with (v : pyval) (code : Z) : response :=
  {| status_code := code; body := v |}.

Definition Handler : Type := World -> response * World.

Definition internal_server_error : response :=
  jsonify_with (PDict [("error", PStr "Internal server error")]) 500.

(** [try: ... except Exception as e: logger.error(...); return 500] *)
Definition try_except (msg : string) (m : M response) : Handler :=
  fun w =>
    match m w with
    | (Ok r, w') => (r, w')
    | (Raise e, w') => (internal_server_error, snd (emit (EvError msg e) w'))
    end.

Definition required_fields : list string :=
  ["scene_id"; "text_prompt"; "emotion"; "intensity"; "style";
   "camera_angle"; "models"].

(** The validation loop: the first field that is not in [data]. *)
Fixpoint first_missing (fields : list string) (data : pyval)
  : res (option string) :=
  match fields with
  | [] => Ok None
  | field :: rest =>
      match py_in field data with
      | Raise e => Raise e
      | Ok false => Ok (Some field)
      | Ok true => first_missing rest data
      end
  end.

Definition missing_field (field : string) : response :=
  jsonify_with
    (PDict [("error", PStr ("Missing required field: " +:+ field))]) 400.

Definition accepted (job_id : string) : response :=
  jsonify_with
    (PDict [ ("job_id", PStr job_id);
             ("status", PStr "processing");
             ("estimated_time", PInt 30);
             ("progress_url",
              PStr ("/api/v1/jobs/" +:+ job_id +:+ "/status")) ]) 202.

Definition job_not_found : response :=
  jsonify_with (PDict [("error", PStr "Job not found")]) 404.

Definition mock_result (job_id : string) : pyval :=
  PDict [ ("job_id", PStr job_id);
          ("status", PStr "completed");
          ("progress", PInt 100);
          ("result", PDict [
             ("scene_id", PStr "scene-001");
             ("outputs", PDict [
                ("video", PStr "https://example.com/generated-video.mp4");
                ("audio", PStr "https://example.com/generated-audio.mp3");
                ("metadata", PDict [ ("emotion_accuracy", PFloat 0.94);
                                     ("visual_quality", PFloat 0.91);
                                     ("audio_sync", PFloat 0.96) ]) ]);
             ("processing_time", PFloat 25.3) ]) ].

(** [get_job_status] *)
Definition get_job_status (job_id : string) : Handler :=
  fun w =>
    match active_jobs w !! job_id with
    | None => (job_not_found, w)
    | Some _ => (jsonify (mock_result job_id), w)
    end.

(** [health_check] *)
Definition health_check : Handler :=
  fun w =>
    (jsonify (PDict [ ("status", PStr "healthy");
                      ("version", PStr "1.0.0");
                      ("components", PDict [
                         ("model_fusion", PStr "operational");
                         ("openrouter", PStr "connected");
                         ("pollinations", PStr "connected");
                         ("flux_pipeline", PStr "ready") ]) ]), w).

Definition model_entry (id name type : string) : pyval :=
  PDict [("id", PStr id); ("name", PStr name); ("type", PStr type)].

(** [list_available_models] *)
Definition list_available_models : Handler :=
  fun w =>
    (jsonify (PDict [
       ("text_models", PList [
          model_entry "claude-3-haiku" "Claude 3 Haiku" "fast";
          model_entry "gpt-4" "GPT-4" "premium";
          model_entry "gemini-pro" "Gemini Pro" "balanced" ]);
       ("image_models", PList [
          model_entry "flux" "Flux" "photorealistic";
          model_entry "flux-realism" "Flux Realism" "hyperrealistic";
          model_entry "flux-anime" "Flux Anime" "artistic" ]);
       ("video_models", PList [
          model_entry "seedance" "Seedance" "motion";
          model_entry "lens-warp" "Lens Warp" "cinematic" ]);
       ("audio_models", PList [
          model_entry "pollinations-voice" "Pollinations Voice" "speech";
          model_entry "pollinations-music" "Pollinations Music"
                      "soundtrack" ]) ]), w).

Section Handlers.

Variable rt : PyRuntime.

(** [float(v)] *)
Definition py_float (v : pyval) : res float :=
  match v with
  | PFloat f => Ok f
  | PInt z => match float_of_int rt z with
              | Some f => Ok f
              | None => Raise OverflowError
              end
  | PBool b => Ok (if b then 1%float else 0%float)
  | PStr s => match float_of_str rt s with
              | Some f => Ok f
              | None => Raise ValueError
              end
  | _ => Raise TypeError
  end.

(** [v * 100] *)
Definition py_mul_100 (v : pyval) : res pyval :=
  match v with
  | PInt z => Ok (PInt (z * 100))
  | PBool b => Ok (PInt (if b then 100 else 0))
  | PFloat f => Ok (PFloat (PrimFloat.mul f 100))
  | PStr s => Ok (PStr (str_mul s 100))
  | PList l => Ok (PList (list_mul l 100))
  | _ => Raise TypeError
  end.

(** [{v}] inside an f-string. *)
Definition py_format (v : pyval) : string :=
  match v with
  | PNone => "None"
  | PBool true => "True"
  | PBool false => "False"
  | PInt z => pretty z
  | PFloat f => float_str rt f
  | PStr s => s
  | _ => container_str rt v
  end.

(** The arguments of [GenerationRequest(...)], evaluated in order. *)
Definition gen_request (data : pyval) : M GenerationRequest.untyped :=
  let* scene_id := lift (getitem_key data "scene_id") in
  let* text_prompt := lift (getitem_key data "text_prompt") in
  let* emotion := lift (getitem_key data "emotion") in
  let* intensity_raw := lift (getitem_key data "intensity") in
  let* intensity := lift (py_float intensity_raw) in
  let* style := lift (getitem_key data "style") in
  let* camera_angle := lift (getitem_key data "camera_angle") in
  let* models := lift (getitem_key data "models") in
  let* parameters := lift (py_get data "parameters" (PDict [])) in
  ret {| GenerationRequest.u_scene_id := scene_id;
         GenerationRequest.u_text_prompt := text_prompt;
         GenerationRequest.u_emotion := emotion;
         GenerationRequest.u_intensity := intensity;
         GenerationRequest.u_style := style;
         GenerationRequest.u_camera_angle := camera_angle;
         GenerationRequest.u_models := models;
         GenerationRequest.u_parameters := parameters |}.

(** The body of the [try] of [generate_multimodal]; [data] is what
    [request.get_json()] returned. The request object is built and dropped:
    the pipeline is not called. *)
Definition generate_multimodal_try (data : pyval) : M response :=
  let* missing := lift (first_missing required_fields data) in
  match missing with
  | Some field => ret (missing_field field)
  | None =>
      let* _ := gen_request data in
      let* job_id := fresh_uuid rt in
      let* _ := set_job job_id "processing" in
      ret (accepted job_id)
  end.

(** [generate_multimodal] *)
Definition generate_multimodal (data : pyval) : Handler :=
  try_except "Error in multimodal generation: " (generate_multimodal_try data).

Definition improvements : pyval :=
  PList [ PStr "Added cinematic direction";
          PStr "Enhanced emotional context";
          PStr "Optimized for AI generation";
          PStr "Improved visual descriptors" ].

Definition enhance_prompt_try (data : pyval) : M response :=
  let* prompt := lift (py_get data "prompt" (PStr "")) in
  let* context := lift (py_get data "context" (PDict [])) in
  let* emotion := lift (py_get context "emotion" (PStr "neutral")) in
  let* intensity := lift (py_get context "intensity" (PFloat 0.5)) in
  let* percent := lift (py_mul_100 intensity) in
  let* style := lift (py_get context "style" (PStr "realistic")) in
  ret (jsonify (PDict [
    ("original", prompt);
    ("enhanced",
     PStr ("Enhanced cinematic prompt: " +:+ py_format prompt +:+ " with " +:+
           py_format emotion +:+ " emotion at " +:+ py_format percent +:+
           "% intensity. Professional cinematography with " +:+
           py_format style +:+ " style."));
    ("improvements", improvements) ])).

(** [enhance_prompt] *)
Definition enhance_prompt (data : pyval) : Handler :=
  try_except "Error in prompt enhancement: " (enhance_prompt_try data).

(** ** The process as a transition system *)

(** What can happen to the process: a request to one of the five routes, or
    a call of the engine's pipeline. *)
Inductive call : Type :=
| CallHealthCheck
| CallGenerateMultimodal (data : pyval)
| CallGetJobStatus (job_id : string)
| CallEnhancePrompt (data : pyval)
| CallListAvailableModels
| CallProcessMultimodalScene (req : GenerationRequest).

Inductive outcome : Type :=
| Responded (r : response)
| Returned (r : GenerationResult)
| Raised (e : exn).

Definition of_handler (h : Handler) (w : World) : outcome * World :=
  (Responded (fst (h w)), snd (h w)).

Definition step (c : call) (w : World) : outcome * World :=
  match c with
  | CallHealthCheck => of_handler health_check w
  | CallGenerateMultimodal data => of_handler (generate_multimodal data) w
  | CallGetJobStatus job_id => of_handler (get_job_status job_id) w
  | CallEnhancePrompt data => of_handler (enhance_prompt data) w
  | CallListAvailableModels => of_handler list_available_models w
  | CallProcessMultimodalScene req =>
      match process_multimodal_scene rt req w with
      | (Ok r, w') => (Returned r, w')
      | (Raise e, w') => (Raised e, w')
      end
  end.

Fixpoint run (cs : list call) (w : World) : World :=
  match cs with
  | [] => w
  | c :: cs' => run cs' (snd (step c w))
  end.

Definition reachable (w : World) : Prop :=
  exists cs : list call, w = run cs init_world.

End Handlers.

(** ** A runtime to evaluate the model on concrete requests *)

(** The exact decimal expansion of a float. CPython prints the shortest
    decimal that reads back as the same float, which is this expansion
    whenever it has at most 15 significant digits and no exponent is
    called for (50.0, 12.5, 0.25). *)
Fixpoint strip_zeros (fuel : nat) (k : Z) (n : Z) : Z * Z :=
  match fuel with
  | O => (k, n)
  | S fuel' =>
      if (0 <? k)%Z && (n mod 10 =? 0)%Z then strip_zeros fuel' (k - 1)%Z (n / 10)%Z
      else (k, n)
  end.

Fixpoint pad_zeros (k : nat) (s : string) : string :=
  match k with
  | O => s
  | S k' => if (String.length s <=? k')%nat then pad_zeros k' ("0" +:+ s) else s
  end.

Definition decimal_of (m e : Z) : string :=
  if (0 <=? e)%Z then pretty (m * 2 ^ e)%Z +:+ ".0"
  else
    let k := (- e)%Z in
    let n := (m * 5 ^ k)%Z in
    let '(k', n') := strip_zeros (Z.to_nat k) k n in
    if (k' =? 0)%Z then pretty n' +:+ ".0"
    else pretty (n' / 10 ^ k')%Z +:+ "." +:+
         pad_zeros (Z.to_nat k') (pretty (n' mod 10 ^ k')%Z).

Definition exact_float_str (f : float) : string :=
  match Prim2SF f with
  | S754_zero false => "0.0"
  | S754_zero true => "-0.0"
  | S754_infinity false => "inf"
  | S754_infinity true => "-inf"
  | S754_nan => "nan"
  | S754_finite false m e => decimal_of (Zpos m) e
  | S754_finite true m e => "-" +:+ decimal_of (Zpos m) e
  end.

Definition digit_of (c : ascii) : option Z :=
  let n := nat_of_ascii c in
  if (48 <=? n)%nat && (n <=? 57)%nat then Some (Z.of_nat (n - 48)) else None.

(** Digits up to an optional point: the number without its point, and the
    count of digits after the point. *)
Fixpoint scan_decimal (s : string) (acc : Z) (frac : option nat)
  : option (Z * nat) :=
  match s with
  | EmptyString => Some (acc, match frac with Some k => k | None => O end)
  | String c s' =>
      match digit_of c with
      | Some d =>
          scan_decimal s' (acc * 10 + d)%Z
                       (match frac with Some k => Some (S k) | None => None end)
      | None =>
          match frac with
          | None => if Ascii.eqb c "." then scan_decimal s' acc (Some O)
                    else None
          | Some _ => None
          end
      end
  end.

Definition float_of_Z (z : Z) : float :=
  if (z <? 0)%Z then PrimFloat.opp (PrimFloat.of_uint63 (Uint63.of_Z (- z)))
  else PrimFloat.of_uint63 (Uint63.of_Z z).

(** [float(s)] on unsigned decimal literals of at most 15 digits ("0.8",
    "12", "3.25"), where one division of two exact floats rounds as CPython
    does; every other string is refused, as CPython refuses "abc". *)
Definition decimal_literal (s : string) : option float :=
  if (String.length s =? 0)%nat || (15 <? String.length s)%nat ||
     String.eqb s "."
  then None
  else match scan_decimal s 0 None with
       | Some (n, k) =>
           Some (PrimFloat.div (float_of_Z n)
                               (float_of_Z (10 ^ Z.of_nat k)))
       | None => None
       end.

Definition small_int_float (z : Z) : option float :=
  if (Z.abs z <? 2 ^ 53)%Z then Some (float_of_Z z) else None.

Definition demo_runtime : PyRuntime :=
  {| float_str := exact_float_str;
     float_of_str := decimal_literal;
     float_of_int := small_int_float;
     container_str := fun _ => "{}";
     str_hash := fun s => Z.of_nat (String.length s);
     uuid4 := fun n => "uuid-" +:+ pretty n;
     time_time := fun n => float_of_Z (Z.of_nat n) |}.

(** A complete payload for [generate_multimodal], and the same with one
    field left out or its intensity replaced. *)
Definition demo_payload : list (string * pyval) :=
  [ ("scene_id", PStr "scene-7");
    ("text_prompt", PStr "A boy runs through a Wheat Field");
    ("emotion", PStr "joy");
    ("intensity", PFloat 0.5);
    ("style", PStr "cinematic");
    ("camera_angle", PStr "wide");
    ("models", PDict [("text", PStr "claude-3-haiku");
                      ("image", PStr "flux");
                      ("video", PStr "seedance")]) ].

Definition without (k : string) (d : list (string * pyval))
  : list (string * pyval) :=
  List.filter (fun kv => negb (String.eqb (fst kv) k)) d.

Definition with_intensity (v : pyval) : list (string * pyval) :=
  List.map (fun kv => if String.eqb (fst kv) "intensity"
                      then (fst kv, v) else kv) demo_payload.

Definition demo_request (text_prompt : string) : GenerationRequest :=
  {| GenerationRequest.scene_id := "scene-7";
     GenerationRequest.text_prompt := text_prompt;
     GenerationRequest.emotion := "joy";
     GenerationRequest.intensity := 0.5;
     GenerationRequest.style := "cinematic";
     GenerationRequest.camera_angle := "wide";
     GenerationRequest.models := [("text", "claude-3-haiku");
                                  ("image", "flux"); ("video", "seedance")];
     GenerationRequest.parameters := [] |}.

(** The three subscriptions of [_fuse_modalities], on their own:
    [visual["videos"][0]["url"]], [audio["music"]["url"]] and
    [audio["voice"]["url"]], in the order the dict display evaluates them. *)
Definition primary_urls (visual audio : pyval) : res (pyval * pyval * pyval) :=
  match getitem_key visual "videos" with
  | Raise e => Raise e
  | Ok videos =>
  match getitem_0 videos with
  | Raise e => Raise e
  | Ok video0 =>
  match getitem_key video0 "url" with
  | Raise e => Raise e
  | Ok video_url =>
  match getitem_key audio "music" with
  | Raise e => Raise e
  | Ok music =>
  match getitem_key music "url" with
  | Raise e => Raise e
  | Ok music_url =>
  match getitem_key audio "voice" with
  | Raise e => Raise e
  | Ok voice =>
  match getitem_key voice "url" with
  | Raise e => Raise e
  | Ok voice_url => Ok (video_url, music_url, voice_url)
  end end end end end end end.

Definition primary_content (video_url music_url voice_url : pyval) : pyval :=
  PDict [("video", video_url); ("audio", music_url); ("voice", voice_url)].

(** What one call of [process_multimodal_scene] leaves in the trace: its
    log line, then the sleep of each stage. *)
Definition stage_trace (req : GenerationRequest) : list event :=
  [ EvInfo ("Starting multimodal processing for scene " +:+
            GenerationRequest.scene_id req);
    EvSleep 0.5; EvSleep 2.0; EvSleep 1.5; EvSleep 1.0 ].

(** The world after [logger.error(...)] in an [except] clause. *)
Definition logged (msg : string) (e : exn) (w : World) : World :=
  {| uuid_ctr := uuid_ctr w; clock_ctr := clock_ctr w;
     active_jobs := active_jobs w;
     trace := (trace w ++ [EvError msg e])%list |}.

(** The world after [generate_multimodal] accepted a request. *)
Definition registered (job_id : string) (w : World) : World :=
  {| uuid_ctr := S (uuid_ctr w); clock_ctr := clock_ctr w;
     active_jobs := <[job_id := "processing"]> (active_jobs w);
     trace := trace w |}.

(** The prefix of the line [generate_multimodal] logs on an exception. *)
Definition generation_error : string := "Error in multimodal generation: ".

(** [d.get(k, default)] on the entries of a dict. *)
Definition dict_get_default (k : string) (d : list (string * pyval))
  (default : pyval) : pyval :=
  match dict_get k d with Some x => x | None => default end.

(** The same request under another [scene_id], [models] and [parameters]. *)
Definition relabel (scene_id : string) (models : list (string * string))
  (parameters : list (string * pyval)) (req : GenerationRequest)
  : GenerationRequest :=
  {| GenerationRequest.scene_id := scene_id;
     GenerationRequest.text_prompt := GenerationRequest.text_prompt req;
     GenerationRequest.emotion := GenerationRequest.emotion req;
     GenerationRequest.intensity := GenerationRequest.intensity req;
     GenerationRequest.style := GenerationRequest.style req;
     GenerationRequest.camera_angle := GenerationRequest.camera_angle req;
     GenerationRequest.models := models;
     GenerationRequest.parameters := parameters |}.

(** * Verification *)

(** Case analysis on the scrutinee of a [match] in the goal. *)
Ltac destruct_match :=
  match goal with
  | |- context [match ?x with _ => _ end] => destruct x eqn:?
  end.


Example exact_float_str_examples :
  List.map exact_float_str [50; 12.5; 0.25; 80; 0; 100.125]%float =
  ["50.0"; "12.5"; "0.25"; "80.0"; "0.0"; "100.125"].
Proof. vm_compute. reflexivity. Qed.

Example decimal_literal_examples :
  List.map decimal_literal ["0.8"; "12"; "3.25"; "abc"; ""; "1.2.3"] =
  [Some 0.8; Some 12; Some 3.25; None; None; None]%float.
Proof. vm_compute. reflexivity. Qed.

Example enhance_wheat_field :
  fst (_enhance_text_prompt demo_runtime
         (demo_request "A boy runs through a Wheat Field") init_world) =
  Ok "Cinematic wide shot of a young boy with joy expression, running through a golden wheat field at golden hour. Warm sunlight creates dramatic backlighting, wheat stalks swaying in gentle breeze. Dynamic movement with cinematic cinematography, 50.0% emotional intensity. Professional color grading with warm amber tones.".
Proof. vm_compute. reflexivity. Qed.

Example enhance_generic :
  fst (_enhance_text_prompt demo_runtime (demo_request "a quiet harbour")
         init_world) =
  Ok "Professional cinematic wide shot featuring a quiet harbour. Emotional tone: joy at 50.0% intensity. Cinematic lighting and composition optimized for AI generation.".
Proof. vm_compute. reflexivity. Qed.

(** ** Substring search *)

Lemma append_nil (s : string) : EmptyString +:+ s = s.
Proof. reflexivity. Qed.

Lemma append_cons (c : ascii) (s t : string) :
  String c s +:+ t = String c (s +:+ t).
Proof. reflexivity. Qed.

Lemma append_assoc (s t u : string) : (s +:+ t) +:+ u = s +:+ t +:+ u.
Proof.
  induction s as [|c s IH]; [reflexivity |].
  rewrite !append_cons. now f_equal.
Qed.

Lemma prefix_app (n h : string) :
  String.prefix n h = true <-> exists b, h = n +:+ b.
Proof.
  revert h. induction n as [|c n IH]; intros h; simpl.
  - destruct h; split; eauto.
  - setoid_rewrite append_cons.
    destruct h as [|c' h]; simpl.
    + split; [discriminate | intros [b Hb]; discriminate].
    + destruct (ascii_dec c c') as [->|Hne].
      * rewrite IH. split; intros [b Hb]; exists b; congruence.
      * split; [discriminate | intros [b Hb]; congruence].
Qed.

(** [str_in] decides the occurrence of [n] somewhere inside [h]. *)
Lemma str_in_spec (n h : string) :
  str_in n h = true <-> exists a b, h = a +:+ n +:+ b.
Proof.
  induction h as [|c h IH].
  - change (str_in n EmptyString) with (String.prefix n EmptyString || false).
    rewrite orb_false_r, prefix_app. split.
    + intros [b Hb]. exists EmptyString, b. exact Hb.
    + intros [a [b Hab]]. destruct a; [eauto | discriminate].
  - change (str_in n (String c h))
      with (String.prefix n (String c h) || str_in n h).
    rewrite orb_true_iff, prefix_app, IH. split.
    + intros [[b Hb] | [a [b Hab]]].
      * exists EmptyString, b. exact Hb.
      * exists (String c a), b. rewrite append_cons. congruence.
    + intros [a [b Hab]]. destruct a as [|c' a].
      * left. eauto.
      * right. exists a, b. rewrite append_cons in Hab. congruence.
Qed.

Lemma str_in_app (n a b : string) : str_in n (a +:+ n +:+ b) = true.
Proof. apply str_in_spec. eauto. Qed.

(** ** The prompt enhancement step *)

Lemma enhance_eq (rt : PyRuntime) (req : GenerationRequest) (w : World) :
  _enhance_text_prompt rt req w =
  (Ok (if str_in "wheat field" (lower (GenerationRequest.text_prompt req))
       then wheat_field_template rt req else generic_template rt req),
   snd (sleep 0.5 w)).
Proof.
  unfold _enhance_text_prompt, bind. simpl.
  destruct (str_in _ _); reflexivity.
Qed.

Lemma templates_differ (rt : PyRuntime) (req : GenerationRequest) :
  wheat_field_template rt req <> generic_template rt req.
Proof.
  unfold wheat_field_template, generic_template.
  rewrite !append_cons. congruence.
Qed.

(** C2. The prompt enhancement step returns the elaborate hand-authored
    template exactly when the lower-cased [text_prompt] contains "wheat
    field" as a substring; on every other request it returns the generic
    cinematic template. *)
Theorem enhance_selects_template
  (rt : PyRuntime) (req : GenerationRequest) (w : World) :
  exists enhanced w',
    _enhance_text_prompt rt req w = (Ok enhanced, w') /\
    (enhanced = wheat_field_template rt req <->
     exists a b,
       lower (GenerationRequest.text_prompt req) = a +:+ "wheat field" +:+ b) /\
    (enhanced <> wheat_field_template rt req ->
     enhanced = generic_template rt req).
Proof.
  rewrite enhance_eq. eexists _, _. split; [reflexivity |].
  rewrite <- str_in_spec.
  destruct (str_in _ _) eqn:Hin.
  - split; [tauto | congruence].
  - split; [| reflexivity].
    split; [| discriminate].
    intros H. symmetry in H. now apply templates_differ in H.
Qed.

(** C10, as the code has it. On the "wheat field" branch the enhanced prompt
    is the fixed narrative filled with [emotion], [camera_angle], [style]
    and [intensity] only: [text_prompt] is not interpolated, so two such
    requests that agree on these four fields get the same prompt whatever
    their [text_prompt] is. On the generic branch the original
    [text_prompt] is embedded verbatim. *)
Theorem wheat_field_prompt_ignores_text
  (rt : PyRuntime) (req1 req2 req3 : GenerationRequest) (w1 w2 w3 : World) :
  str_in "wheat field" (lower (GenerationRequest.text_prompt req1)) = true ->
  str_in "wheat field" (lower (GenerationRequest.text_prompt req2)) = true ->
  GenerationRequest.emotion req1 = GenerationRequest.emotion req2 ->
  GenerationRequest.camera_angle req1 = GenerationRequest.camera_angle req2 ->
  GenerationRequest.style req1 = GenerationRequest.style req2 ->
  GenerationRequest.intensity req1 = GenerationRequest.intensity req2 ->
  str_in "wheat field" (lower (GenerationRequest.text_prompt req3)) = false ->
  fst (_enhance_text_prompt rt req1 w1) = Ok (wheat_field_template rt req1) /\
  fst (_enhance_text_prompt rt req1 w1) = fst (_enhance_text_prompt rt req2 w2) /\
  exists before after,
    fst (_enhance_text_prompt rt req3 w3) =
    Ok (before +:+ GenerationRequest.text_prompt req3 +:+ after).
Proof.
  intros H1 H2 He Hc Hs Hi H3.
  rewrite !enhance_eq, H1, H2, H3. simpl.
  split; [reflexivity |]. split.
  - unfold wheat_field_template, percent. now rewrite He, Hc, Hs, Hi.
  - unfold generic_template.
    exists ("Professional " +:+ GenerationRequest.style req3 +:+ " " +:+
            GenerationRequest.camera_angle req3 +:+ " shot featuring ").
    eexists. f_equal.
    rewrite !append_assoc. reflexivity.
Qed.

Lemma wheat_field_prompt_ignores_text_witness :
  let req1 := demo_request "A boy runs through a Wheat Field" in
  let req2 := demo_request "wheat field at dawn" in
  let req3 := demo_request "a quiet harbour" in
  fst (_enhance_text_prompt demo_runtime req1 init_world) =
    Ok (wheat_field_template demo_runtime req1) /\
  fst (_enhance_text_prompt demo_runtime req1 init_world) =
    fst (_enhance_text_prompt demo_runtime req2 init_world) /\
  exists before after,
    fst (_enhance_text_prompt demo_runtime req3 init_world) =
    Ok (before +:+ GenerationRequest.text_prompt req3 +:+ after).
Proof.
  intros req1 req2 req3.
  apply (wheat_field_prompt_ignores_text demo_runtime req1 req2 req3);
    vm_compute; reflexivity.
Defined.

(** C10 as stated fails: the prompt "wheat field" takes the elaborate
    branch, and the narrative, which speaks of "a golden wheat field",
    contains that very string. *)
Lemma wheat_field_text_prompt_appears :
  str_in "wheat field"
    (lower (GenerationRequest.text_prompt (demo_request "wheat field"))) = true /\
  exists enhanced,
    fst (_enhance_text_prompt demo_runtime (demo_request "wheat field")
           init_world) = Ok enhanced /\
    str_in (GenerationRequest.text_prompt (demo_request "wheat field"))
           enhanced = true.
Proof.
  split; [vm_compute; reflexivity |].
  eexists. split; vm_compute; reflexivity.
Qed.

(** ** The audio generation step *)

Lemma audio_eq (req : GenerationRequest) (enhanced_text : string) (w : World) :
  exists audio,
    _generate_audio req enhanced_text w = (Ok audio, snd (sleep 1.5 w)) /\
    exists voice lipsync,
      getitem_key audio "voice" = Ok voice /\
      getitem_key voice "lipsync_data" = Ok lipsync /\
      getitem_key lipsync "phonemes" = Ok (PList (List.map PStr lipsync_phonemes)) /\
      getitem_key lipsync "timestamps" =
        Ok (PList (List.map PFloat lipsync_timestamps)) /\
      getitem_key lipsync "mouth_shapes" =
        Ok (PList (List.map PStr lipsync_mouth_shapes)).
Proof.
  eexists. split; [reflexivity |].
  eexists _, _. repeat split; reflexivity.
Qed.

Lemma timestamps_nth (i : nat) :
  (i < 50)%nat -> nth i lipsync_timestamps 0%float = timestamp i.
Proof.
  intros Hi. unfold lipsync_timestamps.
  rewrite (nth_indep _ 0%float (timestamp 0)) by (rewrite length_map, length_seq; lia).
  rewrite (map_nth timestamp (seq 0 50) 0%nat i), seq_nth by lia. reflexivity.
Qed.

Lemma timestamps_step (i : nat) :
  (i + 1 < 50)%nat -> PrimFloat.ltb (timestamp i) (timestamp (i + 1)) = true.
Proof.
  intros Hi.
  assert (Hall : forallb (fun i => PrimFloat.ltb (timestamp i) (timestamp (i + 1)))
                         (seq 0 49) = true) by (vm_compute; reflexivity).
  rewrite forallb_forall in Hall. apply Hall, in_seq. lia.
Qed.

(** C5. On every call the audio generation step returns lip-sync data whose
    phoneme, timestamp and mouth-shape sequences have 50 entries each; the
    timestamps start at 0.0, the i-th one is [i * 0.1] (binary64
    multiplication, as the comprehension computes it), each is strictly
    below the next, and the last one is 4.9. *)
Theorem audio_lipsync_aligned
  (req : GenerationRequest) (enhanced_text : string) (w : World) :
  exists audio w' voice lipsync,
    _generate_audio req enhanced_text w = (Ok audio, w') /\
    getitem_key audio "voice" = Ok voice /\
    getitem_key voice "lipsync_data" = Ok lipsync /\
    getitem_key lipsync "phonemes" = Ok (PList (List.map PStr lipsync_phonemes)) /\
    getitem_key lipsync "timestamps" =
      Ok (PList (List.map PFloat lipsync_timestamps)) /\
    getitem_key lipsync "mouth_shapes" =
      Ok (PList (List.map PStr lipsync_mouth_shapes)) /\
    length lipsync_phonemes = 50%nat /\
    length lipsync_timestamps = 50%nat /\
    length lipsync_mouth_shapes = 50%nat /\
    nth 0 lipsync_timestamps 0%float = 0%float /\
    nth 49 lipsync_timestamps 0%float = 4.9%float /\
    (forall i : nat, (i < 50)%nat ->
       nth i lipsync_timestamps 0%float =
       PrimFloat.mul (PrimFloat.of_uint63 (Uint63.of_Z (Z.of_nat i))) 0.1) /\
    (forall i : nat, (i + 1 < 50)%nat ->
       PrimFloat.ltb (nth i lipsync_timestamps 0%float)
                     (nth (i + 1) lipsync_timestamps 0%float) = true).
Proof.
  destruct (audio_eq req enhanced_text w)
    as (audio & Hrun & voice & lipsync & Hv & Hl & Hp & Ht & Hm).
  exists audio, (snd (sleep 1.5 w)), voice, lipsync.
  repeat (split; [assumption || (vm_compute; reflexivity) |]).
  split.
  - intros i Hi. now rewrite timestamps_nth.
  - intros i Hi. rewrite !timestamps_nth by lia. now apply timestamps_step.
Qed.

(** ** The fusion step *)

Lemma fuse_eq (visual audio : pyval) (req : GenerationRequest) (w : World) :
  _fuse_modalities visual audio req w =
  (match primary_urls visual audio with
   | Ok (video_url, music_url, voice_url) =>
       Ok (PDict [ ("primary_content",
                    primary_content video_url music_url voice_url);
                   ("synchronized_timeline", synchronized_timeline);
                   ("fusion_metadata", fusion_metadata);
                   ("render_ready", render_ready) ])
   | Raise e => Raise e
   end, snd (sleep 1.0 w)).
Proof.
  unfold _fuse_modalities, primary_urls, bind, lift, ret. simpl.
  destruct (getitem_key visual "videos") as [videos|]; [| reflexivity].
  destruct (getitem_0 videos) as [video0|]; [| reflexivity].
  destruct (getitem_key video0 "url"); [| reflexivity].
  destruct (getitem_key audio "music") as [music|]; [| reflexivity].
  destruct (getitem_key music "url"); [| reflexivity].
  destruct (getitem_key audio "voice") as [voice|]; [| reflexivity].
  destruct (getitem_key voice "url"); reflexivity.
Qed.

(** C9, as the code has it. On every two inputs for which the three
    subscriptions succeed (the first video's URL, the music URL and the
    voice URL can be looked up), the fusion step returns on both runs, with
    the same [synchronized_timeline] (total_duration 10.0, emotion_peaks
    [2.5, 5.0, 8.5], camera_transitions [0, 3.0, 6.0, 9.0],
    audio_sync_points [0, 2.0, 4.0, 6.0, 8.0]), the same [fusion_metadata]
    and the same [render_ready]; only [primary_content] varies, and it holds
    exactly the three URLs. *)
Theorem fuse_constants_independent
  (visual1 audio1 visual2 audio2 : pyval) (req1 req2 : GenerationRequest)
  (w1 w2 : World) (video1 music1 voice1 video2 music2 voice2 : pyval) :
  primary_urls visual1 audio1 = Ok (video1, music1, voice1) ->
  primary_urls visual2 audio2 = Ok (video2, music2, voice2) ->
  exists out1 out2,
    fst (_fuse_modalities visual1 audio1 req1 w1) = Ok out1 /\
    fst (_fuse_modalities visual2 audio2 req2 w2) = Ok out2 /\
    getitem_key out1 "synchronized_timeline" =
      getitem_key out2 "synchronized_timeline" /\
    getitem_key out1 "synchronized_timeline" =
      Ok (PDict [ ("total_duration", PFloat 10.0);
                  ("emotion_peaks", PList [PFloat 2.5; PFloat 5.0; PFloat 8.5]);
                  ("camera_transitions",
                   PList [PInt 0; PFloat 3.0; PFloat 6.0; PFloat 9.0]);
                  ("audio_sync_points",
                   PList [PInt 0; PFloat 2.0; PFloat 4.0; PFloat 6.0;
                          PFloat 8.0]) ]) /\
    getitem_key out1 "fusion_metadata" = getitem_key out2 "fusion_metadata" /\
    getitem_key out1 "fusion_metadata" = Ok fusion_metadata /\
    getitem_key out1 "render_ready" = getitem_key out2 "render_ready" /\
    getitem_key out1 "render_ready" = Ok render_ready /\
    getitem_key out1 "primary_content" =
      Ok (PDict [("video", video1); ("audio", music1); ("voice", voice1)]) /\
    getitem_key out2 "primary_content" =
      Ok (PDict [("video", video2); ("audio", music2); ("voice", voice2)]).
Proof.
  intros H1 H2. rewrite !fuse_eq, H1, H2. simpl.
  eexists _, _. repeat split; reflexivity.
Qed.

(** C9 as stated fails: a non-empty [visual["videos"]] does not make the
    step return. With an audio dict that has no "music" entry the second
    subscription raises [KeyError]. *)
Lemma fuse_raises_without_music :
  getitem_key (PDict [("videos", PList [PDict [("url", PStr "v.mp4")]])])
              "videos" = Ok (PList [PDict [("url", PStr "v.mp4")]]) /\
  fst (_fuse_modalities
         (PDict [("videos", PList [PDict [("url", PStr "v.mp4")]])])
         (PDict []) (demo_request "a quiet harbour") init_world) =
  Raise (KeyError (PStr "music")).
Proof. split; reflexivity. Qed.

Lemma fuse_constants_independent_witness :
  exists out1 out2,
    fst (_fuse_modalities
           (PDict [("videos", PList [PDict [("url", PStr "a.mp4")]])])
           (PDict [("music", PDict [("url", PStr "a.mp3")]);
                   ("voice", PDict [("url", PStr "a.wav")])])
           (demo_request "a quiet harbour") init_world) = Ok out1 /\
    fst (_fuse_modalities
           (PDict [("videos", PList [PDict [("url", PStr "b.mp4")];
                                     PDict [("url", PStr "c.mp4")]])])
           (PDict [("voice", PDict [("url", PStr "b.wav")]);
                   ("music", PDict [("url", PStr "b.mp3")])])
           (demo_request "wheat field") init_world) = Ok out2 /\
    getitem_key out1 "synchronized_timeline" =
      getitem_key out2 "synchronized_timeline" /\
    getitem_key out1 "synchronized_timeline" =
      Ok (PDict [ ("total_duration", PFloat 10.0);
                  ("emotion_peaks", PList [PFloat 2.5; PFloat 5.0; PFloat 8.5]);
                  ("camera_transitions",
                   PList [PInt 0; PFloat 3.0; PFloat 6.0; PFloat 9.0]);
                  ("audio_sync_points",
                   PList [PInt 0; PFloat 2.0; PFloat 4.0; PFloat 6.0;
                          PFloat 8.0]) ]) /\
    getitem_key out1 "fusion_metadata" = getitem_key out2 "fusion_metadata" /\
    getitem_key out1 "fusion_metadata" = Ok fusion_metadata /\
    getitem_key out1 "render_ready" = getitem_key out2 "render_ready" /\
    getitem_key out1 "render_ready" = Ok render_ready /\
    getitem_key out1 "primary_content" =
      Ok (PDict [("video", PStr "a.mp4"); ("audio", PStr "a.mp3");
                 ("voice", PStr "a.wav")]) /\
    getitem_key out2 "primary_content" =
      Ok (PDict [("video", PStr "b.mp4"); ("audio", PStr "b.mp3");
                 ("voice", PStr "b.wav")]).
Proof.
  apply fuse_constants_independent; reflexivity.
Defined.

(** ** The pipeline *)

Lemma process_eq (rt : PyRuntime) (req : GenerationRequest) (w : World) :
  exists enhanced visual audio fused,
    enhanced = (if str_in "wheat field"
                     (lower (GenerationRequest.text_prompt req))
                then wheat_field_template rt req
                else generic_template rt req) /\
    (forall w1, _generate_visuals rt req enhanced w1 =
                (Ok visual, snd (sleep 2.0 w1))) /\
    (forall w2, _generate_audio req enhanced w2 =
                (Ok audio, snd (sleep 1.5 w2))) /\
    (forall w3, _fuse_modalities visual audio req w3 =
                (Ok fused, snd (sleep 1.0 w3))) /\
    process_multimodal_scene rt req w =
    (Ok {| GenerationResult.request_id := uuid4 rt (uuid_ctr w);
           GenerationResult.scene_id := GenerationRequest.scene_id req;
           GenerationResult.status := "completed";
           GenerationResult.outputs := fused;
           GenerationResult.metadata := result_metadata req enhanced;
           GenerationResult.processing_time :=
             PrimFloat.sub (time_time rt (S (clock_ctr w)))
                           (time_time rt (clock_ctr w)) |},
     {| uuid_ctr := S (uuid_ctr w);
        clock_ctr := S (S (clock_ctr w));
        active_jobs := active_jobs w;
        trace := (trace w ++ stage_trace req)%list |}).
Proof.
  eexists _, _, _, _. split; [reflexivity |].
  split; [intros w1; reflexivity |].
  split; [intros w2; reflexivity |].
  split; [intros w3; reflexivity |].
  unfold process_multimodal_scene, bind, now, fresh_uuid, logger_info, emit.
  rewrite enhance_eq. simpl.
  unfold stage_trace. rewrite <- !app_assoc. reflexivity.
Qed.

(** C1. For every request, [process_multimodal_scene] runs text
    enhancement, then visual generation on the enhanced prompt, then audio
    generation on the enhanced prompt, then the fusion of the two outputs,
    each stage starting in the state the previous one left, and nothing
    else: the trace grows by the log line and the four sleeps, in this
    order. It returns a result with status "completed", the request's
    [scene_id], the fused output, and a metadata dict with the enhanced
    prompt, the request's models, the emotion context and the four stage
    names in order. *)
Theorem process_runs_four_stages
  (rt : PyRuntime) (req : GenerationRequest) (w : World) :
  exists enhanced w1 visual w2 audio w3 fused w4 result w',
    _enhance_text_prompt rt req
      {| uuid_ctr := S (uuid_ctr w); clock_ctr := S (clock_ctr w);
         active_jobs := active_jobs w;
         trace := (trace w ++
                   [EvInfo ("Starting multimodal processing for scene " +:+
                            GenerationRequest.scene_id req)])%list |}
      = (Ok enhanced, w1) /\
    _generate_visuals rt req enhanced w1 = (Ok visual, w2) /\
    _generate_audio req enhanced w2 = (Ok audio, w3) /\
    _fuse_modalities visual audio req w3 = (Ok fused, w4) /\
    process_multimodal_scene rt req w = (Ok result, w') /\
    trace w4 = trace w' /\
    trace w' =
      (trace w ++
       [ EvInfo ("Starting multimodal processing for scene " +:+
                 GenerationRequest.scene_id req);
         EvSleep 0.5; EvSleep 2.0; EvSleep 1.5; EvSleep 1.0 ])%list /\
    GenerationResult.status result = "completed" /\
    GenerationResult.scene_id result = GenerationRequest.scene_id req /\
    GenerationResult.outputs result = fused /\
    getitem_key (GenerationResult.metadata result) "enhanced_prompt" =
      Ok (PStr enhanced) /\
    getitem_key (GenerationResult.metadata result) "models_used" =
      Ok (models_used req) /\
    getitem_key (GenerationResult.metadata result) "emotion_context" =
      Ok (PDict [ ("emotion", PStr (GenerationRequest.emotion req));
                  ("intensity", PFloat (GenerationRequest.intensity req)) ]) /\
    getitem_key (GenerationResult.metadata result) "processing_stages" =
      Ok (PList [ PStr "text_enhancement"; PStr "visual_generation";
                  PStr "audio_generation"; PStr "fusion" ]).
Proof.
  destruct (process_eq rt req w)
    as (enhanced & visual & audio & fused & He & Hv & Ha & Hf & Hrun).
  exists enhanced. eexists. exists visual. eexists. exists audio. eexists.
  exists fused. eexists _, _, _.
  split; [rewrite enhance_eq, <- He; reflexivity |].
  split; [apply Hv |]. split; [apply Ha |]. split; [apply Hf |].
  split; [apply Hrun |].
  split; [simpl; unfold stage_trace; rewrite <- !app_assoc; reflexivity |].
  repeat split; reflexivity.
Qed.

(** ** The generate handler *)

(** Building the request object reads [data] and touches nothing else. *)
Lemma gen_request_pure (rt : PyRuntime) (data : pyval) (w : World) :
  gen_request rt data w = (fst (gen_request rt data init_world), w).
Proof.
  unfold gen_request, bind, lift, ret.
  repeat (destruct_match; try reflexivity).
Qed.

Lemma generate_cases (rt : PyRuntime) (data : pyval) (w : World) :
  generate_multimodal rt data w =
  match first_missing required_fields data with
  | Raise e => (internal_server_error, logged generation_error e w)
  | Ok (Some field) => (missing_field field, w)
  | Ok None =>
      match fst (gen_request rt data init_world) with
      | Raise e => (internal_server_error, logged generation_error e w)
      | Ok _ => (accepted (uuid4 rt (uuid_ctr w)),
                 registered (uuid4 rt (uuid_ctr w)) w)
      end
  end.
Proof.
  unfold generate_multimodal, try_except, generate_multimodal_try, bind.
  unfold lift at 1.
  destruct (first_missing required_fields data) as [[field|]|e];
    [reflexivity | | reflexivity].
  rewrite gen_request_pure.
  destruct (fst (gen_request rt data init_world)); reflexivity.
Qed.

Lemma first_missing_dict (fields : list string) (d : list (string * pyval)) :
  first_missing fields (PDict d) =
  Ok (List.find (fun field => negb (dict_has field d)) fields).
Proof.
  induction fields as [|field rest IH]; [reflexivity |].
  simpl. destruct (dict_has field d); simpl; [exact IH | reflexivity].
Qed.

Lemma dict_has_get (k : string) (d : list (string * pyval)) :
  dict_has k d = true -> exists v, dict_get k d = Some v.
Proof. unfold dict_has. destruct (dict_get k d); [eauto | discriminate]. Qed.

Lemma all_present (d : list (string * pyval)) :
  List.find (fun field => negb (dict_has field d)) required_fields = None ->
  forall field, In field required_fields -> dict_has field d = true.
Proof.
  intros Hfind field Hin.
  apply (find_none _ _ Hfind) in Hin. now apply negb_false_iff in Hin.
Qed.

(** With the seven fields in the dict, only [float()] can fail. *)
Lemma gen_request_dict (rt : PyRuntime) (d : list (string * pyval)) :
  List.find (fun field => negb (dict_has field d)) required_fields = None ->
  exists v, dict_get "intensity" d = Some v /\
    match py_float rt v with
    | Raise e => fst (gen_request rt (PDict d) init_world) = Raise e
    | Ok _ => exists r, fst (gen_request rt (PDict d) init_world) = Ok r
    end.
Proof.
  intros Hfind. pose proof (all_present d Hfind) as Hall.
  destruct (dict_has_get "scene_id" d) as [v1 H1]; [apply Hall; simpl; tauto |].
  destruct (dict_has_get "text_prompt" d) as [v2 H2]; [apply Hall; simpl; tauto |].
  destruct (dict_has_get "emotion" d) as [v3 H3]; [apply Hall; simpl; tauto |].
  destruct (dict_has_get "intensity" d) as [v4 H4]; [apply Hall; simpl; tauto |].
  destruct (dict_has_get "style" d) as [v5 H5]; [apply Hall; simpl; tauto |].
  destruct (dict_has_get "camera_angle" d) as [v6 H6]; [apply Hall; simpl; tauto |].
  destruct (dict_has_get "models" d) as [v7 H7]; [apply Hall; simpl; tauto |].
  exists v4. split; [exact H4 |].
  unfold gen_request, bind, lift, ret, getitem_key, py_get.
  rewrite H1, H2, H3, H4, H5, H6, H7.
  destruct (py_float rt v4); [| reflexivity].
  destruct (dict_get "parameters" d); eexists; reflexivity.
Qed.

(** C4. A JSON object that lacks at least one of the seven required fields
    is answered with HTTP 400 and the body [{"error": "Missing required
    field: <name>"}], where [<name>] is one of the fields it lacks (the
    first in the order of the list); the state is left as it was, so no job
    is registered. *)
Theorem missing_field_yields_400
  (rt : PyRuntime) (d : list (string * pyval)) (w : World) :
  (exists field, In field required_fields /\ dict_has field d = false) ->
  exists name,
    In name required_fields /\ dict_has name d = false /\
    generate_multimodal rt (PDict d) w =
    ({| status_code := 400;
        body := PDict [("error", PStr ("Missing required field: " +:+ name))] |},
     w) /\
    active_jobs (snd (generate_multimodal rt (PDict d) w)) = active_jobs w.
Proof.
  intros (field & Hin & Hmiss).
  rewrite generate_cases, first_missing_dict.
  destruct (List.find _ required_fields) as [name|] eqn:Hfind.
  - apply find_some in Hfind as [Hname Hno].
    apply negb_true_iff in Hno.
    exists name. repeat split; assumption.
  - apply (all_present d Hfind) in Hin. congruence.
Qed.

Lemma missing_field_yields_400_witness :
  exists name,
    In name required_fields /\
    dict_has name (without "emotion" demo_payload) = false /\
    generate_multimodal demo_runtime (PDict (without "emotion" demo_payload))
                        init_world =
    ({| status_code := 400;
        body := PDict [("error", PStr ("Missing required field: " +:+ name))] |},
     init_world) /\
    active_jobs (snd (generate_multimodal demo_runtime
                        (PDict (without "emotion" demo_payload)) init_world)) =
    active_jobs init_world.
Proof.
  apply missing_field_yields_400.
  exists "emotion". split; [simpl; tauto | reflexivity].
Defined.

Example omitting_emotion :
  fst (generate_multimodal demo_runtime (PDict (without "emotion" demo_payload))
                           init_world) =
  {| status_code := 400;
     body := PDict [("error", PStr "Missing required field: emotion")] |}.
Proof. reflexivity. Qed.

(** C3, as the code has it. The handler validates presence only. A JSON
    object that lacks a required field is answered 400. A JSON object with
    all seven fields is never answered 400: when [float()] raises on its
    intensity the answer is the generic 500, the exception is logged and no
    job is registered; otherwise the answer is 202, whatever the other
    fields hold. *)
Theorem generate_multimodal_status_codes
  (rt : PyRuntime) (d : list (string * pyval)) (w : World) :
  match List.find (fun field => negb (dict_has field d)) required_fields with
  | Some name =>
      dict_has name d = false /\
      generate_multimodal rt (PDict d) w = (missing_field name, w) /\
      status_code (fst (generate_multimodal rt (PDict d) w)) = 400%Z
  | None =>
      exists v, dict_get "intensity" d = Some v /\
        match py_float rt v with
        | Raise e =>
            generate_multimodal rt (PDict d) w =
            ({| status_code := 500;
                body := PDict [("error", PStr "Internal server error")] |},
             {| uuid_ctr := uuid_ctr w; clock_ctr := clock_ctr w;
                active_jobs := active_jobs w;
                trace := (trace w ++
                          [EvError "Error in multimodal generation: " e])%list |})
        | Ok _ =>
            generate_multimodal rt (PDict d) w =
            (accepted (uuid4 rt (uuid_ctr w)),
             registered (uuid4 rt (uuid_ctr w)) w) /\
            status_code (fst (generate_multimodal rt (PDict d) w)) = 202%Z
        end
  end.
Proof.
  rewrite generate_cases, first_missing_dict.
  destruct (List.find _ required_fields) as [name|] eqn:Hfind.
  - apply find_some in Hfind as [_ Hno]. apply negb_true_iff in Hno.
    repeat split; assumption.
  - destruct (gen_request_dict rt d Hfind) as (v & Hv & Hreq).
    exists v. split; [exact Hv |].
    destruct (py_float rt v) as [f|e].
    + destruct Hreq as [r ->]. split; reflexivity.
    + rewrite Hreq. reflexivity.
Qed.

(** C3 as stated fails: with the seven fields present and the intensity
    "abc", [float()] raises [ValueError] and the answer is 500, not 400. *)
Lemma malformed_intensity_yields_500 :
  forallb (fun field =>
             dict_has field
               [ ("scene_id", PStr "scene-7");
                 ("text_prompt", PStr "A boy runs through a Wheat Field");
                 ("emotion", PStr "joy");
                 ("intensity", PStr "abc");
                 ("style", PStr "cinematic");
                 ("camera_angle", PStr "wide");
                 ("models", PDict [("image", PStr "flux")]) ])
          required_fields = true /\
  py_float demo_runtime (PStr "abc") = Raise ValueError /\
  fst (generate_multimodal demo_runtime
         (PDict [ ("scene_id", PStr "scene-7");
                  ("text_prompt", PStr "A boy runs through a Wheat Field");
                  ("emotion", PStr "joy");
                  ("intensity", PStr "abc");
                  ("style", PStr "cinematic");
                  ("camera_angle", PStr "wide");
                  ("models", PDict [("image", PStr "flux")]) ])
         init_world) =
  {| status_code := 500;
     body := PDict [("error", PStr "Internal server error")] |}.
Proof. repeat split; vm_compute; reflexivity. Qed.

Example null_intensity_yields_500 (rt : PyRuntime) :
  generate_multimodal rt (PDict (with_intensity PNone)) init_world =
  (internal_server_error, logged generation_error TypeError init_world).
Proof. reflexivity. Qed.

Example complete_payload_yields_202 :
  generate_multimodal demo_runtime (PDict demo_payload) init_world =
  ({| status_code := 202;
      body := PDict [ ("job_id", PStr "uuid-0");
                      ("status", PStr "processing");
                      ("estimated_time", PInt 30);
                      ("progress_url", PStr "/api/v1/jobs/uuid-0/status") ] |},
   {| uuid_ctr := 1; clock_ctr := 0;
      active_jobs := {["uuid-0" := "processing"]}; trace := [] |}).
Proof. vm_compute. reflexivity. Qed.

(** ** The status handler *)

(** C6. [get_job_status] answers 404 with [{"error": "Job not found"}]
    exactly when the id is not in the registry. For a registered id it
    answers 200 with the mocked "completed" payload, which is built from the
    id alone: the same in every state where the id is registered, whatever
    status is stored and whatever the pipeline did. The state is left as it
    was. *)
Theorem job_status_is_mocked (job_id : string) (w w2 : World) :
  snd (get_job_status job_id w) = w /\
  (fst (get_job_status job_id w) =
     {| status_code := 404; body := PDict [("error", PStr "Job not found")] |}
   <-> active_jobs w !! job_id = None) /\
  (status_code (fst (get_job_status job_id w)) = 404%Z
   <-> active_jobs w !! job_id = None) /\
  (is_Some (active_jobs w !! job_id) ->
   fst (get_job_status job_id w) =
     {| status_code := 200; body := mock_result job_id |} /\
   getitem_key (mock_result job_id) "status" = Ok (PStr "completed") /\
   getitem_key (mock_result job_id) "progress" = Ok (PInt 100) /\
   (is_Some (active_jobs w2 !! job_id) ->
    fst (get_job_status job_id w2) = fst (get_job_status job_id w))).
Proof.
  unfold get_job_status.
  destruct (active_jobs w !! job_id) as [s|] eqn:Hw; simpl.
  - split; [reflexivity |].
    split; [split; discriminate |].
    split; [split; discriminate |].
    intros _. repeat split.
    intros [s2 Hs2]. now rewrite Hs2.
  - split; [reflexivity |].
    split; [tauto |]. split; [tauto |].
    intros [s Hs]. discriminate.
Qed.

(** ** The process: what one call does to the state *)

Lemma enhance_prompt_try_pure (rt : PyRuntime) (data : pyval) (w : World) :
  enhance_prompt_try rt data w =
  (fst (enhance_prompt_try rt data init_world), w).
Proof.
  unfold enhance_prompt_try, bind, lift, ret.
  repeat (destruct_match; try reflexivity).
Qed.

Lemma enhance_prompt_effect (rt : PyRuntime) (data : pyval) (w : World) :
  snd (enhance_prompt rt data w) = w \/
  exists e, snd (enhance_prompt rt data w) =
            logged "Error in prompt enhancement: " e w.
Proof.
  unfold enhance_prompt, try_except.
  rewrite enhance_prompt_try_pure.
  destruct (fst (enhance_prompt_try rt data init_world)); simpl;
    [left; reflexivity | right; eexists; reflexivity].
Qed.

Lemma process_effect (rt : PyRuntime) (req : GenerationRequest) (w : World) :
  exists result,
    process_multimodal_scene rt req w =
    (Ok result,
     {| uuid_ctr := S (uuid_ctr w); clock_ctr := S (S (clock_ctr w));
        active_jobs := active_jobs w;
        trace := (trace w ++ stage_trace req)%list |}) /\
    GenerationResult.request_id result = uuid4 rt (uuid_ctr w).
Proof.
  destruct (process_eq rt req w) as (? & ? & ? & ? & _ & _ & _ & _ & Hrun).
  eexists. split; [exact Hrun | reflexivity].
Qed.

Lemma step_cases (rt : PyRuntime) (c : call) (w : World) :
  snd (step rt c w) = w \/
  (exists msg e, snd (step rt c w) = logged msg e w) \/
  (exists data,
     c = CallGenerateMultimodal data /\
     fst (step rt c w) = Responded (accepted (uuid4 rt (uuid_ctr w))) /\
     snd (step rt c w) = registered (uuid4 rt (uuid_ctr w)) w) \/
  (exists req,
     c = CallProcessMultimodalScene req /\
     snd (step rt c w) =
     {| uuid_ctr := S (uuid_ctr w); clock_ctr := S (S (clock_ctr w));
        active_jobs := active_jobs w;
        trace := (trace w ++ stage_trace req)%list |}).
Proof.
  destruct c as [|data|job_id|data| |req]; simpl.
  - left. reflexivity.
  - rewrite generate_cases.
    destruct (first_missing required_fields data) as [[field|]|e].
    + left. reflexivity.
    + destruct (fst (gen_request rt data init_world)) as [r|e].
      * right. right. left. exists data. repeat split.
      * right. left. eauto.
    + right. left. eauto.
  - left. unfold get_job_status. destruct (active_jobs w !! job_id); reflexivity.
  - destruct (enhance_prompt_effect rt data w) as [H|[e H]].
    + left. exact H.
    + right. left. eauto.
  - left. reflexivity.
  - right. right. right. exists req. split; [reflexivity |].
    destruct (process_effect rt req w) as (result & -> & _). reflexivity.
Qed.

Lemma step_uuid_ctr (rt : PyRuntime) (c : call) (w : World) :
  (uuid_ctr w <= uuid_ctr (snd (step rt c w)))%nat.
Proof.
  destruct (step_cases rt c w)
    as [H | [(msg & e & H) | [(data & _ & _ & H) | (req & _ & H)]]];
    rewrite H; simpl; lia.
Qed.

Lemma run_uuid_ctr (rt : PyRuntime) (cs : list call) (w : World) :
  (uuid_ctr w <= uuid_ctr (run rt cs w))%nat.
Proof.
  revert w. induction cs as [|c cs IH]; intros w; simpl; [lia |].
  pose proof (step_uuid_ctr rt c w). pose proof (IH (snd (step rt c w))). lia.
Qed.

Lemma step_keeps_processing (rt : PyRuntime) (c : call) (w : World) :
  map_Forall (fun _ status => status = "processing") (active_jobs w) ->
  map_Forall (fun _ status => status = "processing")
             (active_jobs (snd (step rt c w))).
Proof.
  intros Hinv.
  destruct (step_cases rt c w)
    as [H | [(msg & e & H) | [(data & _ & _ & H) | (req & _ & H)]]];
    rewrite H; simpl; try assumption.
  apply map_Forall_insert_2; [reflexivity | assumption].
Qed.

Lemma run_snoc (rt : PyRuntime) (cs : list call) (c : call) (w : World) :
  run rt (cs ++ [c]) w = snd (step rt c (run rt cs w)).
Proof.
  revert w. induction cs as [|c' cs IH]; intros w; simpl; [reflexivity |].
  apply IH.
Qed.

Lemma reachable_processing (rt : PyRuntime) (w : World) :
  reachable rt w ->
  map_Forall (fun _ status => status = "processing") (active_jobs w).
Proof.
  intros [cs ->].
  induction cs as [|c cs IH] using rev_ind.
  - simpl. apply map_Forall_empty.
  - rewrite run_snoc. now apply step_keeps_processing.
Qed.

(** C7. In every reachable state all registry entries map to
    "processing". No call removes or changes an entry. A call changes the
    registry only when it is a request to [generate_multimodal] that is
    answered 202 with [{job_id, status "processing", estimated_time,
    progress_url}]; that call inserts [job_id -> "processing"], draws one
    UUID and does nothing else: no clock reading, no log line and no sleep,
    whereas a call of [process_multimodal_scene] always leaves its log line
    and four sleeps in the trace. *)
Theorem registry_only_processing (rt : PyRuntime) (w : World) (c : call) :
  reachable rt w ->
  map_Forall (fun _ status => status = "processing") (active_jobs w) /\
  (forall job_id status,
     active_jobs w !! job_id = Some status ->
     active_jobs (snd (step rt c w)) !! job_id = Some status) /\
  (active_jobs (snd (step rt c w)) = active_jobs w \/
   exists data job_id,
     c = CallGenerateMultimodal data /\
     fst (step rt c w) =
       Responded
         {| status_code := 202;
            body := PDict [ ("job_id", PStr job_id);
                            ("status", PStr "processing");
                            ("estimated_time", PInt 30);
                            ("progress_url",
                             PStr ("/api/v1/jobs/" +:+ job_id +:+ "/status")) ] |} /\
     snd (step rt c w) =
       {| uuid_ctr := S (uuid_ctr w); clock_ctr := clock_ctr w;
          active_jobs := <[job_id := "processing"]> (active_jobs w);
          trace := trace w |}) /\
  (forall req,
     c = CallProcessMultimodalScene req ->
     active_jobs (snd (step rt c w)) = active_jobs w /\
     trace (snd (step rt c w)) = (trace w ++ stage_trace req)%list).
Proof.
  intros Hreach. pose proof (reachable_processing rt w Hreach) as Hinv.
  split; [exact Hinv |].
  destruct (step_cases rt c w)
    as [H | [(msg & e & H) | [(data & Hc & Ho & H) | (req & Hc & H)]]].
  - rewrite H. split; [auto |]. split; [left; reflexivity |].
    intros req ->. simpl in H. 
    destruct (process_effect rt req w) as (result & Hrun & _).
    rewrite Hrun in H. simpl in H.
    apply (f_equal uuid_ctr) in H. simpl in H. lia.
  - rewrite H. simpl. split; [auto |]. split; [left; reflexivity |].
    intros req ->. simpl in H.
    destruct (process_effect rt req w) as (result & Hrun & _).
    rewrite Hrun in H. simpl in H.
    apply (f_equal uuid_ctr) in H. simpl in H. lia.
  - rewrite H. simpl. split; [| split].
    + intros job_id status Hjob.
      destruct (decide (uuid4 rt (uuid_ctr w) = job_id)) as [<-|Hne].
      * rewrite lookup_insert_eq. f_equal. symmetry. exact (Hinv _ _ Hjob).
      * now rewrite lookup_insert_ne.
    + right. exists data, (uuid4 rt (uuid_ctr w)).
      split; [exact Hc |]. split; [exact Ho | reflexivity].
    + intros req ->. discriminate.
  - rewrite H. simpl. split; [auto |]. split; [left; reflexivity |].
    intros req' ->. injection Hc as ->. split; reflexivity.
Qed.

Lemma registry_only_processing_witness :
  let w := run demo_runtime [CallGenerateMultimodal (PDict demo_payload);
                             CallProcessMultimodalScene
                               (demo_request "wheat field")] init_world in
  let c := CallGenerateMultimodal (PDict demo_payload) in
  map_Forall (fun _ status => status = "processing") (active_jobs w) /\
  (forall job_id status,
     active_jobs w !! job_id = Some status ->
     active_jobs (snd (step demo_runtime c w)) !! job_id = Some status) /\
  (active_jobs (snd (step demo_runtime c w)) = active_jobs w \/
   exists data job_id,
     c = CallGenerateMultimodal data /\
     fst (step demo_runtime c w) =
       Responded
         {| status_code := 202;
            body := PDict [ ("job_id", PStr job_id);
                            ("status", PStr "processing");
                            ("estimated_time", PInt 30);
                            ("progress_url",
                             PStr ("/api/v1/jobs/" +:+ job_id +:+ "/status")) ] |} /\
     snd (step demo_runtime c w) =
       {| uuid_ctr := S (uuid_ctr w); clock_ctr := clock_ctr w;
          active_jobs := <[job_id := "processing"]> (active_jobs w);
          trace := trace w |}) /\
  (forall req,
     c = CallProcessMultimodalScene req ->
     active_jobs (snd (step demo_runtime c w)) = active_jobs w /\
     trace (snd (step demo_runtime c w)) = (trace w ++ stage_trace req)%list).
Proof.
  intros w c.
  apply (registry_only_processing demo_runtime w c).
  exists [CallGenerateMultimodal (PDict demo_payload);
          CallProcessMultimodalScene (demo_request "wheat field")].
  reflexivity.
Defined.

Example registry_after_two_requests :
  active_jobs (run demo_runtime
                 [CallGenerateMultimodal (PDict demo_payload);
                  CallProcessMultimodalScene (demo_request "wheat field");
                  CallGenerateMultimodal (PDict (with_intensity (PStr "abc")));
                  CallGenerateMultimodal (PDict demo_payload);
                  CallGetJobStatus "uuid-0"] init_world) =
  {["uuid-0" := "processing"; "uuid-2" := "processing"]}.
Proof. vm_compute. reflexivity. Qed.

(** ** Request identifiers *)

(** C8. If the UUID source never repeats a value, any two invocations of
    [process_multimodal_scene] return results with distinct [request_id]s,
    also on the same request, and whatever the process does in between. *)
Theorem request_ids_distinct
  (rt : PyRuntime) (w : World) (req1 req2 : GenerationRequest)
  (between : list call) :
  (forall i j : nat, uuid4 rt i = uuid4 rt j -> i = j) ->
  exists result1 w1 result2 w2,
    process_multimodal_scene rt req1 w = (Ok result1, w1) /\
    process_multimodal_scene rt req2 (run rt between w1) = (Ok result2, w2) /\
    GenerationResult.request_id result1 <> GenerationResult.request_id result2.
Proof.
  intros Hinj.
  destruct (process_effect rt req1 w) as (result1 & Hrun1 & Hid1).
  destruct (process_effect rt req2 (run rt between (snd (process_multimodal_scene rt req1 w))))
    as (result2 & Hrun2 & Hid2).
  rewrite Hrun1 in Hrun2, Hid2. simpl in Hrun2, Hid2.
  eexists result1, _, result2, _.
  split; [exact Hrun1 |]. split; [exact Hrun2 |].
  rewrite Hid1, Hid2. intros Heq. apply Hinj in Heq.
  match type of Heq with
  | _ = uuid_ctr (run rt between ?w1) =>
      pose proof (run_uuid_ctr rt between w1) as Hmono
  end.
  simpl in Hmono. lia.
Qed.

Lemma demo_uuid4_injective (i j : nat) :
  uuid4 demo_runtime i = uuid4 demo_runtime j -> i = j.
Proof.
  simpl. intros H. apply String.app_inj in H. now apply pretty_nat_inj in H.
Qed.

Lemma request_ids_distinct_witness :
  exists result1 w1 result2 w2,
    process_multimodal_scene demo_runtime (demo_request "wheat field")
                             init_world = (Ok result1, w1) /\
    process_multimodal_scene demo_runtime (demo_request "wheat field")
      (run demo_runtime [CallGenerateMultimodal (PDict demo_payload)] w1) =
      (Ok result2, w2) /\
    GenerationResult.request_id result1 <> GenerationResult.request_id result2.
Proof.
  apply (request_ids_distinct demo_runtime init_world
           (demo_request "wheat field") (demo_request "wheat field")
           [CallGenerateMultimodal (PDict demo_payload)]).
  exact demo_uuid4_injective.
Defined.

Example same_request_twice :
  List.map (fun w => match process_multimodal_scene demo_runtime
                             (demo_request "wheat field") w with
                     | (Ok result, _) => GenerationResult.request_id result
                     | (Raise _, _) => EmptyString
                     end)
           [init_world;
            snd (process_multimodal_scene demo_runtime
                   (demo_request "wheat field") init_world)] =
  ["uuid-0"; "uuid-1"].
Proof. vm_compute. reflexivity. Qed.

(** * Further properties of the code *)

(** ** Case-insensitive branch selection *)

Lemma lower_app (a b : string) : lower (a +:+ b) = lower a +:+ lower b.
Proof.
  induction a as [|c a IH]; [reflexivity |].
  rewrite append_cons. simpl. rewrite append_cons. now f_equal.
Qed.

(** X1. A prompt that contains "wheat field" in any mix of upper and lower
    case takes the elaborate branch. *)
Theorem wheat_field_any_case
  (rt : PyRuntime) (req : GenerationRequest) (w : World)
  (before mention after : string) :
  GenerationRequest.text_prompt req = before +:+ mention +:+ after ->
  lower mention = "wheat field" ->
  fst (_enhance_text_prompt rt req w) = Ok (wheat_field_template rt req).
Proof.
  intros Hprompt Hmention.
  rewrite enhance_eq, Hprompt, !lower_app, Hmention, str_in_app. reflexivity.
Qed.

Lemma wheat_field_any_case_witness :
  fst (_enhance_text_prompt demo_runtime
         (demo_request "Sunset over a WHEAT Field, then rain") init_world) =
  Ok (wheat_field_template demo_runtime
        (demo_request "Sunset over a WHEAT Field, then rain")).
Proof.
  apply (wheat_field_any_case demo_runtime _ init_world
           "Sunset over a " "WHEAT Field" ", then rain"); reflexivity.
Defined.

(** ** Spaces in the generated URLs *)

Lemma prefix_nil (s : string) : String.prefix EmptyString s = true.
Proof. destruct s; reflexivity. Qed.

Lemma char_in_nil (c : ascii) :
  str_in (String c EmptyString) EmptyString = false.
Proof. reflexivity. Qed.

Lemma char_in_cons (c c' : ascii) (s : string) :
  str_in (String c EmptyString) (String c' s) =
  Ascii.eqb c c' || str_in (String c EmptyString) s.
Proof.
  change (str_in (String c EmptyString) (String c' s))
    with (String.prefix (String c EmptyString) (String c' s) ||
          str_in (String c EmptyString) s).
  f_equal. simpl. destruct (ascii_dec c c') as [->|Hne].
  - now rewrite prefix_nil, Ascii.eqb_refl.
  - symmetry. now apply Ascii.eqb_neq.
Qed.

Lemma char_in_app (c : ascii) (a b : string) :
  str_in (String c EmptyString) (a +:+ b) =
  str_in (String c EmptyString) a || str_in (String c EmptyString) b.
Proof.
  induction a as [|c' a IH]; [reflexivity |].
  now rewrite append_cons, !char_in_cons, IH, orb_assoc.
Qed.

(** After [s.replace(old, new)] no [old] is left, unless [new] brings one. *)
Lemma replace_char_clears (old : ascii) (new s : string) :
  str_in (String old EmptyString) new = false ->
  str_in (String old EmptyString) (replace_char old new s) = false.
Proof.
  intros Hnew. induction s as [|c s IH]; [reflexivity |].
  simpl. destruct (Ascii.eqb c old) eqn:Hc.
  - now rewrite char_in_app, Hnew, IH.
  - rewrite char_in_cons, IH, orb_false_r.
    now rewrite Ascii.eqb_sym.
Qed.

Lemma seed_no_space (z : Z) :
  str_in " " (pretty (z mod 10000)%Z) = false.
Proof.
  assert (Hall : forallb (fun n => negb (str_in " " (pretty (Z.of_nat n))))
                         (seq 0 (Z.to_nat 10000)) = true)
    by (vm_compute; reflexivity).
  rewrite forallb_forall in Hall.
  pose proof (Z.mod_pos_bound z 10000 eq_refl) as Hz.
  specialize (Hall (Z.to_nat (z mod 10000)%Z)).
  rewrite Z2Nat.id in Hall by lia.
  apply negb_true_iff, Hall, in_seq. lia.
Qed.

(** X2. The visual generation step returns exactly one image descriptor
    and one video descriptor, and neither URL contains a space, whatever
    the enhanced text is: every space of the text became "%20". *)
Theorem visuals_one_each_without_spaces
  (rt : PyRuntime) (req : GenerationRequest) (enhanced_text : string)
  (w : World) :
  exists image_url video_url,
    fst (_generate_visuals rt req enhanced_text w) =
    Ok (PDict [
      ("images", PList [ PDict [
         ("url", PStr image_url);
         ("style", PStr (GenerationRequest.style req));
         ("emotion_accuracy", PFloat 0.92);
         ("technical_quality", PFloat 0.89) ] ]);
      ("videos", PList [ PDict [
         ("url", PStr video_url);
         ("camera_work", PStr (GenerationRequest.camera_angle req));
         ("motion_quality", PFloat 0.87);
         ("emotional_sync", PFloat 0.94) ] ]) ]) /\
    str_in " " image_url = false /\
    str_in " " video_url = false.
Proof.
  eexists _, _. split; [reflexivity |].
  rewrite !char_in_app, seed_no_space, !replace_char_clears by reflexivity.
  split; reflexivity.
Qed.

(** X3. The seed in the image URL is [hash(scene_id)] reduced into
    0..9999, also when the hash is negative, and nothing else of the
    request reaches the image URL: two requests with the same [scene_id]
    get the same URL for the same enhanced text. *)
Theorem image_seed_in_range
  (rt : PyRuntime) (req req' : GenerationRequest) (enhanced_text : string)
  (w w' : World) :
  GenerationRequest.scene_id req = GenerationRequest.scene_id req' ->
  exists images images' image seed,
    getitem_key (match fst (_generate_visuals rt req enhanced_text w) with
                 | Ok v => v | Raise _ => PNone end) "images" = Ok images /\
    getitem_key (match fst (_generate_visuals rt req' enhanced_text w') with
                 | Ok v => v | Raise _ => PNone end) "images" = Ok images' /\
    getitem_0 images = Ok image /\
    getitem_key image "url" =
      Ok (PStr ("https://image.pollinations.ai/prompt/" +:+
                replace_char " " "%20" enhanced_text +:+
                "?width=1920&height=1080&seed=" +:+ pretty seed)) /\
    (0 <= seed < 10000)%Z /\
    ((seed - str_hash rt (GenerationRequest.scene_id req)) mod 10000 = 0)%Z /\
    (exists image', getitem_0 images' = Ok image' /\
                    getitem_key image' "url" = getitem_key image "url").
Proof.
  intros Hscene.
  eexists _, _, _, (str_hash rt (GenerationRequest.scene_id req) mod 10000)%Z.
  split; [reflexivity |]. split; [reflexivity |]. split; [reflexivity |].
  split; [reflexivity |].
  split; [apply Z.mod_pos_bound; lia |].
  split.
  - rewrite Zminus_mod, Z.mod_mod, Z.sub_diag by lia. reflexivity.
  - eexists. split; [reflexivity |]. simpl. now rewrite Hscene.
Qed.

Lemma image_seed_in_range_witness :
  exists images images' image seed,
    getitem_key (match fst (_generate_visuals demo_runtime
                              (demo_request "wheat field") "a b" init_world) with
                 | Ok v => v | Raise _ => PNone end) "images" = Ok images /\
    getitem_key (match fst (_generate_visuals demo_runtime
                              (demo_request "a quiet harbour") "a b"
                              init_world) with
                 | Ok v => v | Raise _ => PNone end) "images" = Ok images' /\
    getitem_0 images = Ok image /\
    getitem_key image "url" =
      Ok (PStr ("https://image.pollinations.ai/prompt/" +:+
                replace_char " " "%20" "a b" +:+
                "?width=1920&height=1080&seed=" +:+ pretty seed)) /\
    (0 <= seed < 10000)%Z /\
    ((seed - str_hash demo_runtime
               (GenerationRequest.scene_id (demo_request "wheat field")))
     mod 10000 = 0)%Z /\
    (exists image', getitem_0 images' = Ok image' /\
                    getitem_key image' "url" = getitem_key image "url").
Proof.
  apply (image_seed_in_range demo_runtime (demo_request "wheat field")
           (demo_request "a quiet harbour") "a b" init_world init_world).
  reflexivity.
Defined.

Example image_url_of_demo :
  getitem_key (match fst (_generate_visuals demo_runtime
                            (demo_request "wheat field") "a b" init_world) with
               | Ok v => v | Raise _ => PNone end) "images" =
  Ok (PList [ PDict [
    ("url", PStr "https://image.pollinations.ai/prompt/a%20b?width=1920&height=1080&seed=7");
    ("style", PStr "cinematic");
    ("emotion_accuracy", PFloat 0.92);
    ("technical_quality", PFloat 0.89) ] ]).
Proof. vm_compute. reflexivity. Qed.

(** ** The voice URL *)

Lemma str_take_prefix (n : nat) (s : string) :
  exists rest, s = str_take n s +:+ rest.
Proof.
  unfold str_take. revert s. induction n as [|n IH]; intros s.
  - exists s. destruct s; reflexivity.
  - destruct s as [|c s]; [exists EmptyString; reflexivity |].
    destruct (IH s) as [rest Hrest]. exists rest.
    simpl. rewrite append_cons. now f_equal.
Qed.

Lemma str_take_length (n : nat) (s : string) :
  String.length (str_take n s) = Nat.min n (String.length s).
Proof.
  unfold str_take. revert s. induction n as [|n IH]; intros s.
  - destruct s; reflexivity.
  - destruct s as [|c s]; [reflexivity |]. simpl. now rewrite IH.
Qed.

Lemma str_take_all (n : nat) (s : string) :
  (String.length s <= n)%nat -> str_take n s = s.
Proof.
  unfold str_take. revert s. induction n as [|n IH]; intros s Hlen.
  - destruct s; [reflexivity | simpl in Hlen; lia].
  - destruct s as [|c s]; [reflexivity |]. simpl in *.
    f_equal. apply IH. lia.
Qed.

(** X4. The voice URL carries the first 100 characters of the enhanced
    text and no more: what it embeds is a prefix of the text, of length
    [min(100, len(text))], so a text of at most 100 characters is embedded
    whole and a longer one is cut. *)
Theorem voice_url_truncates
  (req : GenerationRequest) (enhanced_text : string) (w : World) :
  exists audio voice embedded rest,
    fst (_generate_audio req enhanced_text w) = Ok audio /\
    getitem_key audio "voice" = Ok voice /\
    getitem_key voice "url" =
      Ok (PStr ("https://audio.pollinations.ai/speech/" +:+ embedded +:+
                "?voice=child&emotion=" +:+ GenerationRequest.emotion req)) /\
    enhanced_text = embedded +:+ rest /\
    String.length embedded = Nat.min 100 (String.length enhanced_text) /\
    ((String.length enhanced_text <= 100)%nat -> embedded = enhanced_text).
Proof.
  destruct (str_take_prefix 100 enhanced_text) as [rest Hrest].
  eexists _, _, (str_take 100 enhanced_text), rest.
  split; [reflexivity |]. split; [reflexivity |]. split; [reflexivity |].
  split; [exact Hrest |].
  split; [apply str_take_length | apply str_take_all].
Qed.

(** ** What the pipeline returns *)

Lemma enhanced_has_early_space (rt : PyRuntime) (req : GenerationRequest) :
  str_in " " (str_take 100
                (if str_in "wheat field"
                      (lower (GenerationRequest.text_prompt req))
                 then wheat_field_template rt req
                 else generic_template rt req)) = true.
Proof.
  destruct (str_in "wheat field" _);
    unfold wheat_field_template, generic_template, str_take;
    rewrite !append_cons; simpl; rewrite prefix_nil; reflexivity.
Qed.

(** X5. The pipeline's [primary_content] holds the video URL of the visual
    stage and the music and voice URLs of the audio stage, all built from
    the enhanced prompt that the metadata reports; the image descriptor is
    not part of the outputs. The video URL has no space, while the voice
    URL always carries an unencoded one: both templates have a space within
    their first 100 characters and the voice URL does not escape it. *)
Theorem pipeline_primary_content
  (rt : PyRuntime) (req : GenerationRequest) (w : World) :
  exists result enhanced video_url voice_url,
    fst (process_multimodal_scene rt req w) = Ok result /\
    getitem_key (GenerationResult.metadata result) "enhanced_prompt" =
      Ok (PStr enhanced) /\
    video_url = "https://video.pollinations.ai/prompt/" +:+
                replace_char " " "%20" enhanced +:+ "?duration=10&fps=30" /\
    voice_url = "https://audio.pollinations.ai/speech/" +:+
                str_take 100 enhanced +:+ "?voice=child&emotion=" +:+
                GenerationRequest.emotion req /\
    GenerationResult.outputs result =
      PDict [ ("primary_content",
               PDict [ ("video", PStr video_url);
                       ("audio",
                        PStr ("https://audio.pollinations.ai/music/cinematic-" +:+
                              GenerationRequest.emotion req +:+
                              "?tempo=120&key=C"));
                       ("voice", PStr voice_url) ]);
              ("synchronized_timeline", synchronized_timeline);
              ("fusion_metadata", fusion_metadata);
              ("render_ready", render_ready) ] /\
    str_in " " video_url = false /\
    str_in " " voice_url = true.
Proof.
  destruct (process_eq rt req w)
    as (enhanced & visual & audio & fused & He & Hv & Ha & Hf & Hrun).
  specialize (Hv init_world). specialize (Ha init_world).
  specialize (Hf init_world).
  injection Hv as <-. injection Ha as <-. injection Hf as <-.
  rewrite Hrun. eexists _, enhanced, _, _.
  split; [reflexivity |]. split; [reflexivity |].
  split; [reflexivity |]. split; [reflexivity |]. split; [reflexivity |].
  split.
  - rewrite !char_in_app, replace_char_clears by reflexivity. reflexivity.
  - rewrite !char_in_app, He, enhanced_has_early_space. reflexivity.
Qed.

(** X6. The outputs and the enhanced prompt of the pipeline do not depend
    on [scene_id], [models] or [parameters]: the same request under other
    values of these three fields gets the same outputs, in any state. Only
    the result's own [scene_id] and the metadata's [models_used] follow
    them. *)
Theorem pipeline_outputs_ignore_labels
  (rt : PyRuntime) (req : GenerationRequest) (w w' : World)
  (scene_id : string) (models : list (string * string))
  (parameters : list (string * pyval)) :
  exists result result',
    fst (process_multimodal_scene rt req w) = Ok result /\
    fst (process_multimodal_scene rt
           (relabel scene_id models parameters req) w') = Ok result' /\
    GenerationResult.outputs result' = GenerationResult.outputs result /\
    getitem_key (GenerationResult.metadata result') "enhanced_prompt" =
      getitem_key (GenerationResult.metadata result) "enhanced_prompt" /\
    GenerationResult.scene_id result' = scene_id /\
    getitem_key (GenerationResult.metadata result') "models_used" =
      Ok (PDict (List.map (fun kv => (fst kv, PStr (snd kv))) models)).
Proof.
  destruct (process_eq rt req w)
    as (enhanced & visual & audio & fused & He & Hv & Ha & Hf & Hrun).
  destruct (process_eq rt (relabel scene_id models parameters req) w')
    as (enhanced' & visual' & audio' & fused' & He' & Hv' & Ha' & Hf' & Hrun').
  specialize (Hv init_world). specialize (Ha init_world).
  specialize (Hf init_world). specialize (Hv' init_world).
  specialize (Ha' init_world). specialize (Hf' init_world).
  injection Hv as <-. injection Ha as <-. injection Hf as <-.
  injection Hv' as <-. injection Ha' as <-. injection Hf' as <-.
  assert (Heq : enhanced' = enhanced) by (subst; reflexivity).
  rewrite Hrun, Hrun'. eexists _, _.
  split; [reflexivity |]. split; [reflexivity |].
  simpl. rewrite Heq. repeat split; reflexivity.
Qed.

(** ** The lip-sync cycles *)

Lemma list_mul_succ {A : Type} (l : list A) (n : nat) :
  list_mul l (S n) = (l ++ list_mul l n)%list.
Proof. reflexivity. Qed.

Lemma list_mul_length {A : Type} (l : list A) (n : nat) :
  length (list_mul l n) = (n * length l)%nat.
Proof.
  induction n as [|n IH]; [reflexivity |].
  rewrite list_mul_succ, length_app, IH. simpl. lia.
Qed.

(** Repeating a list: the entry at [i] is the entry at [i mod len(l)]. *)
Lemma list_mul_nth {A : Type} (l : list A) (n i : nat) (d : A) :
  (i < n * length l)%nat ->
  nth i (list_mul l n) d = nth (Nat.modulo i (length l)) l d.
Proof.
  revert i. induction n as [|n IH]; intros i Hi; [simpl in Hi; lia |].
  rewrite list_mul_succ.
  destruct (Nat.lt_ge_cases i (length l)) as [Hlt|Hge].
  - rewrite app_nth1 by exact Hlt. now rewrite Nat.mod_small.
  - rewrite app_nth2 by exact Hge. rewrite IH by (simpl in Hi; lia).
    f_equal.
    assert (Hl : length l <> 0%nat) by (destruct l; simpl in *; lia).
    replace i with ((i - length l) + 1 * length l)%nat at 2 by lia.
    now rewrite Nat.Div0.mod_add.
Qed.

(** X7. The phoneme and mouth-shape sequences are 5-cycles kept in step:
    entry [i] of each is entry [i mod 5] of its cycle, so "A" always meets
    "open", "E" meets "smile", and so on. *)
Theorem lipsync_cycles (i : nat) :
  (i < 50)%nat ->
  nth i lipsync_phonemes EmptyString =
    nth (Nat.modulo i 5) ["A"; "E"; "I"; "O"; "U"] EmptyString /\
  nth i lipsync_mouth_shapes EmptyString =
    nth (Nat.modulo i 5) ["open"; "smile"; "narrow"; "round"; "pucker"]
        EmptyString.
Proof.
  intros Hi. unfold lipsync_phonemes, lipsync_mouth_shapes.
  split; rewrite list_mul_nth by (simpl; lia); reflexivity.
Qed.

Lemma lipsync_cycles_witness :
  nth 37 lipsync_phonemes EmptyString =
    nth (Nat.modulo 37 5) ["A"; "E"; "I"; "O"; "U"] EmptyString /\
  nth 37 lipsync_mouth_shapes EmptyString =
    nth (Nat.modulo 37 5) ["open"; "smile"; "narrow"; "round"; "pucker"]
        EmptyString.
Proof. apply (lipsync_cycles 37). lia. Defined.

(** ** More on the generate handler *)

Lemma getitem_key_non_dict (data : pyval) (k : string) :
  (forall d, data <> PDict d) -> getitem_key data k = Raise TypeError.
Proof.
  intros Hnot. destruct data; try reflexivity. now destruct (Hnot d).
Qed.

Lemma gen_request_non_dict (rt : PyRuntime) (data : pyval) :
  (forall d, data <> PDict d) ->
  fst (gen_request rt data init_world) = Raise TypeError.
Proof.
  intros Hnot. unfold gen_request, bind, lift.
  now rewrite getitem_key_non_dict.
Qed.

Lemma first_missing_in (fields : list string) (data : pyval) (field : string) :
  first_missing fields data = Ok (Some field) -> In field fields.
Proof.
  induction fields as [|f rest IH]; simpl; [discriminate |].
  destruct (py_in f data) as [[|]|e]; [| | discriminate].
  - intros H. right. now apply IH.
  - intros [= ->]. now left.
Qed.

(** X8. A body that is not a JSON object is never accepted: whatever it
    is (null, a number, a string, an array, even one that lists all seven
    field names) the answer is the 400 for one of the required fields or
    the generic 500, no UUID is drawn and the registry is left as it was. *)
Theorem non_object_body_never_accepted
  (rt : PyRuntime) (data : pyval) (w : World) :
  (forall d, data <> PDict d) ->
  (fst (generate_multimodal rt data w) =
     {| status_code := 500;
        body := PDict [("error", PStr "Internal server error")] |} \/
   exists field,
     In field required_fields /\
     fst (generate_multimodal rt data w) =
       {| status_code := 400;
          body := PDict [("error",
                          PStr ("Missing required field: " +:+ field))] |}) /\
  uuid_ctr (snd (generate_multimodal rt data w)) = uuid_ctr w /\
  active_jobs (snd (generate_multimodal rt data w)) = active_jobs w.
Proof.
  intros Hnot. rewrite generate_cases, gen_request_non_dict by exact Hnot.
  destruct (first_missing required_fields data) as [[field|]|e] eqn:Hmiss;
    simpl; repeat split; try (left; reflexivity).
  right. exists field. split; [| reflexivity].
  now apply first_missing_in in Hmiss.
Qed.

Lemma non_object_body_never_accepted_witness :
  (fst (generate_multimodal demo_runtime
          (PList (List.map PStr required_fields)) init_world) =
     {| status_code := 500;
        body := PDict [("error", PStr "Internal server error")] |} \/
   exists field,
     In field required_fields /\
     fst (generate_multimodal demo_runtime
            (PList (List.map PStr required_fields)) init_world) =
       {| status_code := 400;
          body := PDict [("error",
                          PStr ("Missing required field: " +:+ field))] |}) /\
  uuid_ctr (snd (generate_multimodal demo_runtime
                   (PList (List.map PStr required_fields)) init_world)) =
    uuid_ctr init_world /\
  active_jobs (snd (generate_multimodal demo_runtime
                      (PList (List.map PStr required_fields)) init_world)) =
    active_jobs init_world.
Proof.
  apply (non_object_body_never_accepted demo_runtime
           (PList (List.map PStr required_fields)) init_world).
  intros d. simpl. discriminate.
Defined.

Example non_object_bodies (rt : PyRuntime) :
  List.map (fun data => status_code (fst (generate_multimodal rt data init_world)))
    [ PNone; PInt 7; PBool true; PList [];
      PList (List.map PStr required_fields);
      PStr "scene_id text_prompt emotion intensity style camera_angle models";
      PStr "scene_id" ] =
  [500; 500; 500; 400; 500; 500; 400]%Z.
Proof. reflexivity. Qed.

Lemma find_split {A : Type} (p : A -> bool) (l : list A) (x : A) :
  List.find p l = Some x ->
  exists before after,
    l = (before ++ x :: after)%list /\
    Forall (fun y => p y = false) before /\ p x = true.
Proof.
  induction l as [|y l IH]; simpl; [discriminate |].
  destruct (p y) eqn:Hy.
  - intros [= ->]. exists [], l. repeat split; [constructor | exact Hy].
  - intros Hfind. destruct (IH Hfind) as (before & after & -> & Hall & Hx).
    exists (y :: before), after. repeat split; [| exact Hx].
    constructor; assumption.
Qed.

(** X9. When a JSON object is answered 400, the field the error names is
    the earliest missing one in the order scene_id, text_prompt, emotion,
    intensity, style, camera_angle, models: every required field before
    it is present. *)
Theorem first_missing_is_earliest
  (rt : PyRuntime) (d : list (string * pyval)) (w : World) :
  status_code (fst (generate_multimodal rt (PDict d) w)) = 400%Z ->
  exists before name after,
    required_fields = (before ++ name :: after)%list /\
    Forall (fun field => dict_has field d = true) before /\
    dict_has name d = false /\
    body (fst (generate_multimodal rt (PDict d) w)) =
      PDict [("error", PStr ("Missing required field: " +:+ name))].
Proof.
  rewrite generate_cases, first_missing_dict.
  destruct (List.find _ required_fields) as [name|] eqn:Hfind.
  - intros _. apply find_split in Hfind as (before & after & Hsplit & Hall & Hx).
    exists before, name, after. split; [exact Hsplit |].
    split; [| split; [now apply negb_true_iff in Hx | reflexivity]].
    eapply Forall_impl; [exact Hall |].
    intros field Hf. now apply negb_false_iff in Hf.
  - destruct (gen_request_dict rt d Hfind) as (v & _ & Hreq).
    destruct (py_float rt v).
    + destruct Hreq as [r ->]. discriminate.
    + rewrite Hreq. discriminate.
Qed.

Lemma first_missing_is_earliest_witness :
  exists before name after,
    required_fields = (before ++ name :: after)%list /\
    Forall (fun field =>
              dict_has field (without "style" (without "emotion" demo_payload))
              = true) before /\
    dict_has name (without "style" (without "emotion" demo_payload)) = false /\
    body (fst (generate_multimodal demo_runtime
                 (PDict (without "style" (without "emotion" demo_payload)))
                 init_world)) =
      PDict [("error", PStr ("Missing required field: " +:+ name))].
Proof.
  apply (first_missing_is_earliest demo_runtime
           (without "style" (without "emotion" demo_payload)) init_world).
  reflexivity.
Defined.

Example two_fields_missing :
  body (fst (generate_multimodal demo_runtime
               (PDict (without "style" (without "emotion" demo_payload)))
               init_world)) =
  PDict [("error", PStr "Missing required field: emotion")].
Proof. reflexivity. Qed.

(** ** Registration and lookup *)

Lemma step_keeps_jobs (rt : PyRuntime) (c : call) (w : World) (k : string) :
  is_Some (active_jobs w !! k) ->
  is_Some (active_jobs (snd (step rt c w)) !! k).
Proof.
  intros Hk.
  destruct (step_cases rt c w)
    as [H | [(msg & e & H) | [(data & _ & _ & H) | (req & _ & H)]]];
    rewrite H; simpl; try assumption.
  rewrite lookup_insert_is_Some. destruct (decide (uuid4 rt (uuid_ctr w) = k)); auto.
Qed.

Lemma run_keeps_jobs (rt : PyRuntime) (cs : list call) (w : World) (k : string) :
  is_Some (active_jobs w !! k) -> is_Some (active_jobs (run rt cs w) !! k).
Proof.
  revert w. induction cs as [|c cs IH]; intros w Hk; simpl; [exact Hk |].
  apply IH. now apply step_keeps_jobs.
Qed.

Lemma accepted_cases (rt : PyRuntime) (data : pyval) (w : World) :
  status_code (fst (generate_multimodal rt data w)) = 202%Z ->
  generate_multimodal rt data w =
  (accepted (uuid4 rt (uuid_ctr w)), registered (uuid4 rt (uuid_ctr w)) w).
Proof.
  rewrite generate_cases.
  destruct (first_missing required_fields data) as [[field|]|e];
    [discriminate | | discriminate].
  destruct (fst (gen_request rt data init_world)); [reflexivity | discriminate].
Qed.

(** X10. Registration and lookup round trip: when a request is answered
    202, the [job_id] of the answer is the one its [progress_url] names, and
    a status request for it is answered 200 with the mocked payload from
    then on, whatever calls the process serves in between. *)
Theorem accepted_job_is_found
  (rt : PyRuntime) (data : pyval) (w : World) (later : list call) :
  status_code (fst (generate_multimodal rt data w)) = 202%Z ->
  exists job_id,
    getitem_key (body (fst (generate_multimodal rt data w))) "job_id" =
      Ok (PStr job_id) /\
    getitem_key (body (fst (generate_multimodal rt data w))) "progress_url" =
      Ok (PStr ("/api/v1/jobs/" +:+ job_id +:+ "/status")) /\
    fst (get_job_status job_id
           (run rt later (snd (generate_multimodal rt data w)))) =
      {| status_code := 200; body := mock_result job_id |}.
Proof.
  intros Hcode. rewrite (accepted_cases rt data w Hcode).
  exists (uuid4 rt (uuid_ctr w)).
  split; [reflexivity |]. split; [reflexivity |].
  unfold get_job_status. simpl.
  destruct (run_keeps_jobs rt later (registered (uuid4 rt (uuid_ctr w)) w)
              (uuid4 rt (uuid_ctr w))) as [s Hs].
  - simpl. rewrite lookup_insert_eq. eauto.
  - now rewrite Hs.
Qed.

Lemma accepted_job_is_found_witness :
  exists job_id,
    getitem_key (body (fst (generate_multimodal demo_runtime
                              (PDict demo_payload) init_world))) "job_id" =
      Ok (PStr job_id) /\
    getitem_key (body (fst (generate_multimodal demo_runtime
                              (PDict demo_payload) init_world)))
                "progress_url" =
      Ok (PStr ("/api/v1/jobs/" +:+ job_id +:+ "/status")) /\
    fst (get_job_status job_id
           (run demo_runtime
              [CallProcessMultimodalScene (demo_request "wheat field");
               CallGenerateMultimodal (PDict demo_payload)]
              (snd (generate_multimodal demo_runtime (PDict demo_payload)
                      init_world)))) =
      {| status_code := 200; body := mock_result job_id |}.
Proof.
  apply (accepted_job_is_found demo_runtime (PDict demo_payload) init_world).
  vm_compute. reflexivity.
Defined.

(** Every registered identifier was drawn from the UUID source. *)
Lemma reachable_jobs_drawn (rt : PyRuntime) (w : World) (k : string) :
  reachable rt w ->
  is_Some (active_jobs w !! k) ->
  exists i, (i < uuid_ctr w)%nat /\ k = uuid4 rt i.
Proof.
  intros [cs ->]. revert k.
  induction cs as [|c cs IH] using rev_ind; intros k.
  - simpl. rewrite lookup_empty. intros [s Hs]. discriminate.
  - rewrite run_snoc.
    destruct (step_cases rt c (run rt cs init_world))
      as [H | [(msg & e & H) | [(data & _ & _ & H) | (req & _ & H)]]];
      rewrite H; simpl.
    + apply IH.
    + apply IH.
    + rewrite lookup_insert_is_Some. intros [<- | [_ Hk]].
      * exists (uuid_ctr (run rt cs init_world)). split; [lia | reflexivity].
      * destruct (IH k Hk) as (i & Hi & ->). exists i. split; [lia | reflexivity].
    + intros Hk. destruct (IH k Hk) as (i & Hi & ->).
      exists i. split; [lia | reflexivity].
Qed.

(** X11. In every reachable state a status request is answered 200 only
    for an identifier that this process drew from the UUID source earlier;
    any other identifier gets the 404. *)
Theorem status_200_only_for_drawn_ids
  (rt : PyRuntime) (w : World) (job_id : string) :
  reachable rt w ->
  status_code (fst (get_job_status job_id w)) = 200%Z ->
  exists i, (i < uuid_ctr w)%nat /\ job_id = uuid4 rt i.
Proof.
  intros Hreach Hcode. apply (reachable_jobs_drawn rt w job_id Hreach).
  unfold get_job_status in Hcode.
  destruct (active_jobs w !! job_id); [eauto | discriminate].
Qed.

Lemma status_200_only_for_drawn_ids_witness :
  exists i,
    (i < uuid_ctr (run demo_runtime
                     [CallProcessMultimodalScene (demo_request "wheat field");
                      CallGenerateMultimodal (PDict demo_payload)]
                     init_world))%nat /\
    "uuid-1" = uuid4 demo_runtime i.
Proof.
  apply (status_200_only_for_drawn_ids demo_runtime
           (run demo_runtime
              [CallProcessMultimodalScene (demo_request "wheat field");
               CallGenerateMultimodal (PDict demo_payload)] init_world)
           "uuid-1").
  - eexists. reflexivity.
  - vm_compute. reflexivity.
Defined.

(** X12. The registry only grows: with a UUID source that never repeats a
    value, every request answered 202 in a reachable state adds exactly one
    entry, for an identifier that was not registered before. *)
Theorem registry_grows_by_one
  (rt : PyRuntime) (w : World) (data : pyval) :
  (forall i j : nat, uuid4 rt i = uuid4 rt j -> i = j) ->
  reachable rt w ->
  status_code (fst (generate_multimodal rt data w)) = 202%Z ->
  active_jobs w !! uuid4 rt (uuid_ctr w) = None /\
  size (active_jobs (snd (generate_multimodal rt data w))) =
    S (size (active_jobs w)).
Proof.
  intros Hinj Hreach Hcode.
  assert (Hfresh : active_jobs w !! uuid4 rt (uuid_ctr w) = None).
  { destruct (active_jobs w !! uuid4 rt (uuid_ctr w)) as [s|] eqn:Hs;
      [| reflexivity].
    destruct (reachable_jobs_drawn rt w (uuid4 rt (uuid_ctr w)) Hreach)
      as (i & Hi & Heq); [rewrite Hs; eauto |].
    apply Hinj in Heq. lia. }
  split; [exact Hfresh |].
  rewrite (accepted_cases rt data w Hcode). simpl.
  now apply map_size_insert_None.
Qed.

Lemma registry_grows_by_one_witness :
  active_jobs (run demo_runtime [CallGenerateMultimodal (PDict demo_payload)]
                   init_world)
    !! uuid4 demo_runtime
         (uuid_ctr (run demo_runtime
                      [CallGenerateMultimodal (PDict demo_payload)]
                      init_world)) = None /\
  size (active_jobs
          (snd (generate_multimodal demo_runtime (PDict demo_payload)
                  (run demo_runtime
                     [CallGenerateMultimodal (PDict demo_payload)]
                     init_world)))) =
    S (size (active_jobs
               (run demo_runtime [CallGenerateMultimodal (PDict demo_payload)]
                    init_world))).
Proof.
  apply (registry_grows_by_one demo_runtime
           (run demo_runtime [CallGenerateMultimodal (PDict demo_payload)]
                init_world)
           (PDict demo_payload)).
  - exact demo_uuid4_injective.
  - eexists. reflexivity.
  - vm_compute. reflexivity.
Defined.

(** ** The prompt enhancement route *)

Lemma enhance_prompt_cases (rt : PyRuntime) (data : pyval) (w : World) :
  enhance_prompt rt data w =
  match fst (enhance_prompt_try rt data init_world) with
  | Ok r => (r, w)
  | Raise e =>
      (internal_server_error, logged "Error in prompt enhancement: " e w)
  end.
Proof.
  unfold enhance_prompt, try_except. rewrite enhance_prompt_try_pure.
  destruct (fst (enhance_prompt_try rt data init_world)); reflexivity.
Qed.

Lemma enhance_prompt_try_dict
  (rt : PyRuntime) (d c : list (string * pyval)) :
  dict_get_default "context" d (PDict []) = PDict c ->
  fst (enhance_prompt_try rt (PDict d) init_world) =
  match py_mul_100 (dict_get_default "intensity" c (PFloat 0.5)) with
  | Raise e => Raise e
  | Ok percent =>
      Ok (jsonify (PDict [
        ("original", dict_get_default "prompt" d (PStr EmptyString));
        ("enhanced",
         PStr ("Enhanced cinematic prompt: " +:+
               py_format rt (dict_get_default "prompt" d (PStr EmptyString)) +:+
               " with " +:+
               py_format rt (dict_get_default "emotion" c (PStr "neutral")) +:+
               " emotion at " +:+ py_format rt percent +:+
               "% intensity. Professional cinematography with " +:+
               py_format rt (dict_get_default "style" c (PStr "realistic")) +:+
               " style."));
        ("improvements", improvements) ]))
  end.
Proof.
  unfold dict_get_default. intros Hc.
  cbv beta iota delta [enhance_prompt_try bind lift ret py_get fst].
  assert (Hctx : match dict_get "context" d with
                 | Some x => Ok x
                 | None => Ok (PDict [])
                 end = Ok (PDict c))
    by (destruct (dict_get "context" d); congruence).
  destruct (dict_get "prompt" d); rewrite Hctx; cbv beta iota;
    destruct (dict_get "emotion" c); destruct (dict_get "intensity" c);
    cbv beta iota; destruct (py_mul_100 _); cbv beta iota;
    destruct (dict_get "style" c); reflexivity.
Qed.



(** X14. A string intensity is not refused by [enhance_prompt]: Python's
    [*] repeats it, so the answer is 200 and the enhanced text carries the
    string 100 times over in place of a percentage. *)
Theorem string_intensity_is_repeated
  (rt : PyRuntime) (d c : list (string * pyval)) (s : string) (w : World) :
  dict_get "context" d = Some (PDict c) ->
  dict_get "intensity" c = Some (PStr s) ->
  status_code (fst (enhance_prompt rt (PDict d) w)) = 200%Z /\
  exists before after,
    getitem_key (body (fst (enhance_prompt rt (PDict d) w))) "enhanced" =
    Ok (PStr (before +:+ " emotion at " +:+ str_mul s 100 +:+
              "% intensity. Professional cinematography with " +:+ after)).
Proof.
  intros Hc Hi.
  assert (Hctx : dict_get_default "context" d (PDict []) = PDict c)
    by (unfold dict_get_default; now rewrite Hc).
  assert (Hint : dict_get_default "intensity" c (PFloat 0.5) = PStr s)
    by (unfold dict_get_default; now rewrite Hi).
  rewrite enhance_prompt_cases, (enhance_prompt_try_dict rt d c Hctx), Hint.
  cbv beta iota delta [py_mul_100].
  split; [reflexivity |].
  exists ("Enhanced cinematic prompt: " +:+
          py_format rt (dict_get_default "prompt" d (PStr EmptyString)) +:+
          " with " +:+
          py_format rt (dict_get_default "emotion" c (PStr "neutral"))),
         (py_format rt (dict_get_default "style" c (PStr "realistic")) +:+
          " style.").
  rewrite !append_assoc. reflexivity.
Qed.

Lemma string_intensity_is_repeated_witness :
  status_code (fst (enhance_prompt demo_runtime
                      (PDict [("prompt", PStr "a harbour");
                              ("context", PDict [("intensity", PStr "0.5")])])
                      init_world)) = 200%Z /\
  exists before after,
    getitem_key (body (fst (enhance_prompt demo_runtime
                      (PDict [("prompt", PStr "a harbour");
                              ("context", PDict [("intensity", PStr "0.5")])])
                      init_world))) "enhanced" =
    Ok (PStr (before +:+ " emotion at " +:+ str_mul "0.5" 100 +:+
              "% intensity. Professional cinematography with " +:+ after)).
Proof.
  apply (string_intensity_is_repeated demo_runtime
           [("prompt", PStr "a harbour");
            ("context", PDict [("intensity", PStr "0.5")])]
           [("intensity", PStr "0.5")] "0.5" init_world); reflexivity.
Defined.

Example enhance_prompt_defaults :
  fst (enhance_prompt demo_runtime (PDict [("prompt", PStr "a harbour")])
         init_world) =
  {| status_code := 200;
     body := PDict [
       ("original", PStr "a harbour");
       ("enhanced", PStr "Enhanced cinematic prompt: a harbour with neutral emotion at 50.0% intensity. Professional cinematography with realistic style.");
       ("improvements", improvements) ] |}.
Proof. vm_compute. reflexivity. Qed.

Example enhance_prompt_errors (rt : PyRuntime) :
  List.map (fun data => status_code (fst (enhance_prompt rt data init_world)))
    [ PNone; PList []; PDict [("context", PStr "joy")];
      PDict [("context", PDict [("intensity", PNone)])];
      PDict [("context", PDict [("intensity", PInt 1)])];
      PDict [] ] =
  [500; 500; 500; 500; 200; 200]%Z.
Proof. reflexivity. Qed.

(** ** Request identifiers and job identifiers *)

Lemma step_jobs_avoid (rt : PyRuntime) (n : nat) (c : call) (w : World) :
  (n < uuid_ctr w)%nat ->
  (forall k, is_Some (active_jobs w !! k) -> exists i, i <> n /\ k = uuid4 rt i) ->
  forall k, is_Some (active_jobs (snd (step rt c w)) !! k) ->
            exists i, i <> n /\ k = uuid4 rt i.
Proof.
  intros Hn Hinv k.
  destruct (step_cases rt c w)
    as [H | [(msg & e & H) | [(data & _ & _ & H) | (req & _ & H)]]];
    rewrite H; simpl; try apply Hinv.
  rewrite lookup_insert_is_Some. intros [<- | [_ Hk]]; [| now apply Hinv].
  exists (uuid_ctr w). split; [lia | reflexivity].
Qed.

Lemma run_jobs_avoid (rt : PyRuntime) (n : nat) (cs : list call) (w : World) :
  (n < uuid_ctr w)%nat ->
  (forall k, is_Some (active_jobs w !! k) -> exists i, i <> n /\ k = uuid4 rt i) ->
  forall k, is_Some (active_jobs (run rt cs w) !! k) ->
            exists i, i <> n /\ k = uuid4 rt i.
Proof.
  revert w. induction cs as [|c cs IH]; intros w Hn Hinv; simpl; [exact Hinv |].
  apply IH.
  - pose proof (step_uuid_ctr rt c w). lia.
  - now apply step_jobs_avoid.
Qed.

(** X15. With a UUID source that never repeats a value, the [request_id]
    of a pipeline result is never a job identifier: from a reachable state
    on, a status request for it is answered 404, whatever the process
    serves after the pipeline call. *)
Theorem request_id_is_never_a_job_id
  (rt : PyRuntime) (w : World) (req : GenerationRequest) (later : list call) :
  (forall i j : nat, uuid4 rt i = uuid4 rt j -> i = j) ->
  reachable rt w ->
  exists result w',
    process_multimodal_scene rt req w = (Ok result, w') /\
    fst (get_job_status (GenerationResult.request_id result)
           (run rt later w')) =
      {| status_code := 404; body := PDict [("error", PStr "Job not found")] |}.
Proof.
  intros Hinj Hreach.
  destruct (process_effect rt req w) as (result & Hrun & Hid).
  eexists result, _. split; [exact Hrun |].
  unfold get_job_status.
  match goal with
  | |- context [active_jobs ?w' !! ?k] =>
      destruct (active_jobs w' !! k) as [s|] eqn:Hs; [| reflexivity]
  end.
  exfalso.
  match type of Hs with
  | active_jobs (run rt later ?w') !! _ = _ =>
      destruct (run_jobs_avoid rt (uuid_ctr w) later w') with
        (k := GenerationResult.request_id result) as (i & Hi & Heq)
  end.
  - simpl. lia.
  - simpl. intros k Hk.
    destruct (reachable_jobs_drawn rt w k Hreach Hk) as (i & Hi & ->).
    exists i. split; [lia | reflexivity].
  - rewrite Hs. eauto.
  - rewrite Hid in Heq. apply Hinj in Heq. congruence.
Qed.

Lemma request_id_is_never_a_job_id_witness :
  exists result w',
    process_multimodal_scene demo_runtime (demo_request "wheat field")
      (run demo_runtime [CallGenerateMultimodal (PDict demo_payload)]
           init_world) = (Ok result, w') /\
    fst (get_job_status (GenerationResult.request_id result)
           (run demo_runtime [CallGenerateMultimodal (PDict demo_payload)] w')) =
      {| status_code := 404; body := PDict [("error", PStr "Job not found")] |}.
Proof.
  apply (request_id_is_never_a_job_id demo_runtime
           (run demo_runtime [CallGenerateMultimodal (PDict demo_payload)]
                init_world)
           (demo_request "wheat field")
           [CallGenerateMultimodal (PDict demo_payload)]).
  - exact demo_uuid4_injective.
  - eexists. reflexivity.
Defined.

(** ** Failures of the fusion step *)

(** X16. The fusion step sleeps before it looks at its inputs, so the
    sleep is in the trace also when it raises. It raises [TypeError] when
    [visual] is not a dict, [KeyError] when the dict has no "videos",
    [IndexError] when the list of videos is empty, and [KeyError] for
    "music" when the video URL is there and [audio] is a dict without
    "music". *)
Theorem fuse_error_cases
  (visual audio : pyval) (req : GenerationRequest) (w : World) :
  snd (_fuse_modalities visual audio req w) =
    {| uuid_ctr := uuid_ctr w; clock_ctr := clock_ctr w;
       active_jobs := active_jobs w;
       trace := (trace w ++ [EvSleep 1.0])%list |} /\
  ((forall d, visual <> PDict d) ->
   fst (_fuse_modalities visual audio req w) = Raise TypeError) /\
  (forall d, visual = PDict d -> dict_has "videos" d = false ->
   fst (_fuse_modalities visual audio req w) = Raise (KeyError (PStr "videos"))) /\
  (getitem_key visual "videos" = Ok (PList []) ->
   fst (_fuse_modalities visual audio req w) = Raise IndexError) /\
  (forall videos video0 video_url d,
     getitem_key visual "videos" = Ok videos ->
     getitem_0 videos = Ok video0 ->
     getitem_key video0 "url" = Ok video_url ->
     audio = PDict d -> dict_has "music" d = false ->
     fst (_fuse_modalities visual audio req w) = Raise (KeyError (PStr "music"))).
Proof.
  rewrite fuse_eq. split; [reflexivity |]. unfold primary_urls.
  split; [| split; [| split]].
  - intros Hnot. now rewrite getitem_key_non_dict.
  - intros d -> Hno. unfold dict_has in Hno. simpl.
    destruct (dict_get "videos" d); [discriminate | reflexivity].
  - intros ->. reflexivity.
  - intros videos video0 video_url d -> -> -> -> Hno.
    unfold dict_has in Hno. simpl.
    destruct (dict_get "music" d); [discriminate | reflexivity].
Qed.

Example fuse_on_empty_inputs :
  List.map (fun visual => fst (_fuse_modalities visual (PDict [])
                                 (demo_request "wheat field") init_world))
    [ PNone; PDict []; PDict [("videos", PList [])];
      PDict [("videos", PList [PDict []])];
      PDict [("videos", PList [PDict [("url", PStr "v.mp4")]])] ] =
  [ Raise TypeError; Raise (KeyError (PStr "videos")); Raise IndexError;
    Raise (KeyError (PStr "url")); Raise (KeyError (PStr "music")) ].
Proof. reflexivity. Qed.
